(** * Splunk MCP REST bridge: a shallow embedding and its properties

    The bridge exposes REST routes and forwards every call as a JSON-RPC 2.0
    request to one upstream MCP server.  This development embeds

      - [src/config.py]                         ([Config], [Cors]),
      - [src/middleware/auth_middleware.py]     ([Auth]),
      - [src/mcp_client.py]                     ([MCPClient]),
      - [src/routers/tools.py], [resources.py]  ([Tools], [Resources]),
      - [src/middleware/logging_middleware.py]  ([Logging]),
      - [src/main.py]                           ([Main]),

    as state-passing Rocq functions and proves, or refutes on a concrete
    input, the properties stated about them.

    Conventions.  Python [str] values are Rocq strings (holding the UTF-8
    encoding of the text), [bytes] are lists of bytes, JSON mappings are
    association lists in insertion order.  Code that can raise lives in a
    state-and-exception monad [M] over a [World] that holds the global
    [mcp_client] object and a trace of the effects performed so far. *)

From Stdlib Require Import String Ascii List ZArith Bool Lia.
From Stdlib Require Strings.Byte.
Import ListNotations.

Local Open Scope string_scope.
Local Open Scope list_scope.
Local Open Scope Z_scope.

#[local] Set Warnings "-register-all".

(* ===================================================================== *)
(** ** Python values *)
(* ===================================================================== *)

Definition bytes := list Byte.byte.

(** What [json.loads] produces: [None], [bool], [int], [float], [str],
    [list] and [dict].  A float is kept as its [repr], so that the three
    floats JSON has no notation for read [inf], [-inf] and [nan]
    ([json.loads] returns them for [Infinity], [-Infinity], [NaN] and for a
    number too large for a float, such as [1e400]). *)
Inductive json : Type :=
| JNull
| JBool (b : bool)
| JInt (z : Z)
| JFloat (literal : string)
| JStr (s : string)
| JList (l : list json)
| JDict (d : list (string * json)).

Module Dict.
(** [d.get(key)] on the items of a dict. *)
Fixpoint get (key : string) (d : list (string * json)) : option json :=
  match d with
  | [] => None
  | (k, v) :: rest => if String.eqb k key then Some v else get key rest
  end.

(** [key in d]. *)
Definition mem (key : string) (d : list (string * json)) : bool :=
  match get key d with Some _ => true | None => false end.

(** [d.get(key, default)]. *)
Definition get_default (key : string) (d : list (string * json)) (default : json) : json :=
  match get key d with Some v => v | None => default end.
End Dict.

(** The [httpx.Response] fields and methods the client uses: [status_code],
    [text], and [json()], which either returns the parsed body or raises
    (then [json_body] is [None]). *)
Record Response : Type := mkResponse {
  status_code : Z;
  text : string;
  json_body : option json
}.

(** Exceptions, all subclasses of Python's [Exception]. *)
Inductive exn : Type :=
| HTTPException (status : Z) (detail : string) (headers : option (list (string * string)))
| HTTPStatusError (response : Response)
| JSONDecodeError (doc : string)
| UnicodeDecodeError (encoding : string)
| TypeError (what : string)
| AttributeError (what : string)
| Exception_ (message : string)
| LibraryError (class_name : string) (message : string).

Inductive outcome (A : Type) : Type :=
| Returns (a : A)
| Raises (e : exn).
Arguments Returns {A} a.
Arguments Raises {A} e.

(* ===================================================================== *)
(** ** src/config.py *)
(* ===================================================================== *)

Module Config.
Record Settings : Type := mkSettings {
  bridge_host : string;
  bridge_port : Z;
  splunk_mcp_server_url : string;
  splunk_mcp_auth_token : string;
  splunk_mcp_server_timeout : Z;
  splunk_mcp_server_verify_ssl : bool;
  bridge_api_key : option string;
  log_level : string;
  bridge_log_payloads : bool;
  cors_origins : string
}.

(** The field defaults of [Settings]. *)
Definition defaults : Settings :=
  {| bridge_host := "0.0.0.0";
     bridge_port := 8000;
     splunk_mcp_server_url := "http://localhost:3001/mcp";
     splunk_mcp_auth_token := "";
     splunk_mcp_server_timeout := 30;
     splunk_mcp_server_verify_ssl := true;
     bridge_api_key := None;
     log_level := "INFO";
     bridge_log_payloads := false;
     cors_origins := "*" |}.
End Config.
Import Config.

(** Truth value of a [str]: the empty string is falsy. *)
Definition str_truthy (s : string) : bool :=
  match s with EmptyString => false | String _ _ => true end.

(** Truth value of an [Optional[str]]: [None] and the empty string are falsy. *)
Definition opt_str_truthy (o : option string) : bool :=
  match o with Some s => str_truthy s | None => false end.

(** [a == b] on [Optional[str]] values. *)
Definition opt_str_eqb (a b : option string) : bool :=
  match a, b with
  | Some x, Some y => String.eqb x y
  | None, None => true
  | _, _ => false
  end.

(** [needle in haystack] on two [str] values. *)
Definition str_contains (needle haystack : string) : bool :=
  match String.index 0 needle haystack with Some _ => true | None => false end.

(** [key in container], as the client applies it to a parsed body: key
    membership on a dict, element membership on a list, substring test on
    a str, [TypeError] on anything else. *)
Definition py_in (key : string) (container : json) : outcome bool :=
  match container with
  | JDict d => Returns (Dict.mem key d)
  | JList l =>
      Returns (existsb (fun x => match x with JStr s => String.eqb s key | _ => false end) l)
  | JStr s => Returns (str_contains key s)
  | _ => Raises (TypeError "argument is not iterable")
  end.

(** [container[key]] with a str key. *)
Definition py_getitem (container : json) (key : string) : outcome json :=
  match container with
  | JDict d =>
      match Dict.get key d with
      | Some v => Returns v
      | None => Raises (LibraryError "KeyError" key)
      end
  | JList _ => Raises (TypeError "list indices must be integers or slices, not str")
  | JStr _ => Raises (TypeError "string indices must be integers, not 'str'")
  | _ => Raises (TypeError "object is not subscriptable")
  end.

(** [obj.get(key, default)]: only a dict has the method. *)
Definition py_get (obj : json) (key : string) (default : json) : outcome json :=
  match obj with
  | JDict d => Returns (Dict.get_default key d default)
  | _ => Raises (AttributeError "object has no attribute 'get'")
  end.

(** [len(obj)]. *)
Definition py_len (obj : json) : outcome Z :=
  match obj with
  | JDict d => Returns (Z.of_nat (List.length d))
  | JList l => Returns (Z.of_nat (List.length l))
  | JStr s => Returns (Z.of_nat (String.length s))
  | _ => Raises (TypeError "object has no len()")
  end.

(* ===================================================================== *)
(** ** The world: the global client object and the effects performed *)
(* ===================================================================== *)

Module Httpx.
(** An [httpx.AsyncClient], as the keyword arguments it was built with. *)
Record AsyncClient : Type := mkAsyncClient {
  base_url : string;
  timeout : Z;
  headers : list (string * string);
  verify : bool
}.

(** [response.is_success]. *)
Definition is_success (r : Response) : bool :=
  (200 <=? status_code r) && (status_code r <=? 299).

(** [response.raise_for_status()], as in the httpx releases the [mcp]
    package runs on: it raises [HTTPStatusError], which holds the response,
    unless the status is 2xx. *)
Definition raise_for_status (r : Response) : outcome unit :=
  if is_success r then Returns tt else Raises (HTTPStatusError r).
End Httpx.

(** The attributes of an [MCPClient] instance ([session] is never assigned
    and is left out). *)
Record MCPClient_t : Type := mkMCPClient {
  server_url : string;
  auth_token : string;
  timeout : Z;
  _http_client : option Httpx.AsyncClient
}.

Inductive level : Type := INFO | WARNING | ERROR.

(** A value interpolated into a log line. *)
Inductive logarg : Type :=
| AStr (s : string)
| AInt (z : Z)
| AJson (j : json)
| ABytes (b : bytes)
| AHeaders (h : list (string * string))
| AExn (e : exn).

(** Effects, in the order they happen: a line logged, an HTTP client
    built, [post] called on a client, a client closed, the request body
    read by the audit interceptor, the response body drained by it, and
    the request body read by the framework for a route's body parameter. *)
Inductive event : Type :=
| EvLog (lvl : level) (template : string) (args : list logarg)
| EvClientBuilt (c : Httpx.AsyncClient)
| EvPost (c : Httpx.AsyncClient) (path : string) (payload : json)
| EvAclose (c : Httpx.AsyncClient)
| EvRequestBodyRead (body : bytes)
| EvResponseBodyDrained (body : bytes)
| EvRouteBodyRead (body : bytes).

Record World : Type := mkWorld {
  mcp_client : MCPClient_t;
  trace : list event;
  clock : nat
}.

(** What the code relies on and does not define: the wall clock (read in
    milliseconds), the [httpx] client constructor, the library call
    [client.post(path, json=payload)] from the encoding of the payload to
    the response read (it raises when the payload cannot be encoded, before
    anything is sent, and when the exchange fails), and the [str()] of
    values and of library exceptions. *)
Record Env : Type := mkEnv {
  time_time : nat -> Z;
  AsyncClient_init : Httpx.AsyncClient -> option exn;
  http_post : Httpx.AsyncClient -> string -> json -> outcome Response;
  py_str : json -> string;
  exn_message : exn -> string
}.

(** [str(e)]: an [Exception(msg)] prints as its message. *)
Definition str_exn (E : Env) (e : exn) : string :=
  match e with
  | Exception_ message => message
  | _ => exn_message E e
  end.

(** State and exceptions.  An exception keeps the state reached so far. *)
Definition M (A : Type) : Type := World -> outcome A * World.

Definition ret {A : Type} (a : A) : M A := fun w => (Returns a, w).

Definition raise {A : Type} (e : exn) : M A := fun w => (Raises e, w).

Definition bind {A B : Type} (m : M A) (k : A -> M B) : M B :=
  fun w =>
    match m w with
    | (Returns a, w') => k a w'
    | (Raises e, w') => (Raises e, w')
    end.

(** [try: m  except Exception as e: handler e]. *)
Definition try_except {A : Type} (m : M A) (handler : exn -> M A) : M A :=
  fun w =>
    match m w with
    | (Returns a, w') => (Returns a, w')
    | (Raises e, w') => handler e w'
    end.

Definition lift {A : Type} (o : outcome A) : M A := fun w => (o, w).

Declare Scope py_scope.
Delimit Scope py_scope with py.
Notation "x <- m ;; k" := (bind m (fun x => k))
  (at level 100, m at next level, right associativity) : py_scope.
Notation "m ;; k" := (bind m (fun _ => k))
  (at level 100, right associativity) : py_scope.
Local Open Scope py_scope.

Definition emit (ev : event) : M unit :=
  fun w => (Returns tt, {| mcp_client := mcp_client w;
                           trace := trace w ++ [ev];
                           clock := clock w |}).

Definition logger_info (template : string) (args : list logarg) : M unit :=
  emit (EvLog INFO template args).
Definition logger_warning (template : string) (args : list logarg) : M unit :=
  emit (EvLog WARNING template args).
Definition logger_error (template : string) (args : list logarg) : M unit :=
  emit (EvLog ERROR template args).

Definition get_self : M MCPClient_t := fun w => (Returns (mcp_client w), w).

(** [self._http_client = v]. *)
Definition set_http_client (v : option Httpx.AsyncClient) : M unit :=
  fun w => (Returns tt,
            {| mcp_client := {| server_url := server_url (mcp_client w);
                                auth_token := auth_token (mcp_client w);
                                timeout := timeout (mcp_client w);
                                _http_client := v |};
               trace := trace w;
               clock := clock w |}).

(** [time.time()]: the next reading of the wall clock. *)
Definition time_now (E : Env) : M Z :=
  fun w => (Returns (time_time E (clock w)),
            {| mcp_client := mcp_client w; trace := trace w; clock := S (clock w) |}).

(** [when c m]: [if c: m]. *)
Definition when (c : bool) (m : M unit) : M unit := if c then m else ret tt.

(* ===================================================================== *)
(** ** src/mcp_client.py *)
(* ===================================================================== *)

Module MCPClient.
Section Methods.
Variable E : Env.
Variable settings : Settings.

(** [MCPClient.__init__]. *)
Definition __init__ : MCPClient_t :=
  {| server_url := splunk_mcp_server_url settings;
     auth_token := splunk_mcp_auth_token settings;
     timeout := splunk_mcp_server_timeout settings;
     _http_client := None |}.

(** [httpx.AsyncClient(...)]: building the client may raise. *)
Definition AsyncClient (c : Httpx.AsyncClient) : M Httpx.AsyncClient :=
  match AsyncClient_init E c with
  | Some e => raise e
  | None => emit (EvClientBuilt c) ;; ret c
  end.

Definition connect : M unit :=
  try_except
    (self <- get_self ;;
     logger_info "Connecting to Splunk MCP Server at {self.server_url}"
                 [AStr (server_url self)] ;;
     headers <- (if str_truthy (auth_token self)
                 then logger_info "Using Bearer token authentication" [] ;;
                      ret [("Authorization", String.append "Bearer " (auth_token self))]
                 else ret []) ;;
     let verify_ssl := splunk_mcp_server_verify_ssl settings in
     client <- AsyncClient {| Httpx.base_url := server_url self;
                              Httpx.timeout := timeout self;
                              Httpx.headers := headers;
                              Httpx.verify := verify_ssl |} ;;
     set_http_client (Some client) ;;
     logger_info "Successfully connected to Splunk MCP Server" [])
    (fun e =>
       logger_error "Failed to connect to MCP server: {e}" [AExn e] ;;
       raise e).

Definition disconnect : M unit :=
  self <- get_self ;;
  match _http_client self with
  | Some client => emit (EvAclose client) ;; set_http_client None
  | None => ret tt
  end ;;
  logger_info "Disconnected from Splunk MCP Server" [].

(** [self._http_client.post("/", json=payload)].  [EvPost] records that
    [post] was called with the payload; whether a request then leaves the
    client is the library's affair ([requests_sent] below). *)
Definition post (path : string) (payload : json) : M Response :=
  self <- get_self ;;
  match _http_client self with
  | None => raise (AttributeError "'NoneType' object has no attribute 'post'")
  | Some client =>
      emit (EvPost client path payload) ;;
      lift (http_post E client path payload)
  end.

(** [response.json()]; [JSONDecodeError] stands for whichever [ValueError]
    the parse raises. *)
Definition response_json (response : Response) : M json :=
  match json_body response with
  | Some j => ret j
  | None => raise (JSONDecodeError (text response))
  end.

(** The JSON-RPC envelope built by [_send_request]. *)
Definition envelope (method : string) (params : json) (request_id : Z) : json :=
  JDict [("jsonrpc", JStr "2.0");
         ("id", JInt request_id);
         ("method", JStr method);
         ("params", params)].

Definition _send_request (method : string) (params : json) (request_id : Z) : M json :=
  self <- get_self ;;
  match _http_client self with
  | None => connect
  | Some _ => ret tt
  end ;;
  let payload := envelope method params request_id in
  self <- get_self ;;
  when (bridge_log_payloads settings)
       (logger_info "[AUDIT] Calling Splunk MCP: {method} URL: {self.server_url} Payload: {json.dumps(payload, indent=2)}"
                    [AStr method; AStr (server_url self); AJson payload]) ;;
  response <- post "/" payload ;;
  result <- (if bridge_log_payloads settings
             then
               rl <- try_except
                       (result <- response_json response ;;
                        ret (result, AJson result))
                       (fun _ =>
                          ret (JDict [("error", JStr "Non-JSON response from Splunk");
                                      ("raw", JStr (text response))],
                               AStr (text response))) ;;
               logger_info "[AUDIT] Splunk MCP Response: {method} - Status: {response.status_code} Response: {resp_log}"
                           [AStr method; AInt (status_code response); snd rl] ;;
               ret (fst rl)
             else response_json response) ;;
  lift (Httpx.raise_for_status response) ;;
  has_error <- lift (py_in "error" result) ;;
  if (has_error : bool)
  then
    err <- lift (py_getitem result "error") ;;
    raise (Exception_ (String.append "MCP error: " (py_str E err)))
  else lift (py_get result "result" (JDict [])).

Definition list_tools : M json :=
  try_except
    (result <- _send_request "tools/list" (JDict []) 1 ;;
     tools <- lift (py_get result "tools" (JList [])) ;;
     n <- lift (py_len tools) ;;
     logger_info "Retrieved {len(tools)} tools from MCP server" [AInt n] ;;
     ret tools)
    (fun e =>
       self <- get_self ;;
       logger_error "Failed to list tools from {self.server_url}: {str(e)}"
                    [AStr (server_url self); AStr (str_exn E e)] ;;
       raise e).

Definition call_tool (tool_name : string) (arguments : json) : M json :=
  try_except
    (logger_info "Calling tool '{tool_name}' with arguments: {arguments}"
                 [AStr tool_name; AJson arguments] ;;
     _send_request "tools/call"
                   (JDict [("name", JStr tool_name); ("arguments", arguments)])
                   2)
    (fun e =>
       logger_error "Failed to call tool '{tool_name}': {e}" [AStr tool_name; AExn e] ;;
       raise e).

Definition list_resources : M json :=
  try_except
    (result <- _send_request "resources/list" (JDict []) 3 ;;
     resources <- lift (py_get result "resources" (JList [])) ;;
     n <- lift (py_len resources) ;;
     logger_info "Retrieved {len(resources)} resources from MCP server" [AInt n] ;;
     ret resources)
    (fun e =>
       logger_error "Failed to list resources: {e}" [AExn e] ;;
       raise e).

Definition read_resource (uri : string) : M json :=
  try_except
    (logger_info "Reading resource: {uri}" [AStr uri] ;;
     _send_request "resources/read" (JDict [("uri", JStr uri)]) 4)
    (fun e =>
       logger_error "Failed to read resource '{uri}': {e}" [AStr uri; AExn e] ;;
       raise e).
End Methods.
End MCPClient.

(* ===================================================================== *)
(** ** src/middleware/auth_middleware.py *)
(* ===================================================================== *)

Module Auth.
Definition HTTP_403_FORBIDDEN : Z := 403.

(** [get_api_key]: the argument is the value of the [X-API-Key] header,
    [None] when the header is absent ([auto_error=False]). *)
Definition get_api_key (settings : Settings) (api_key_header : option string)
  : outcome (option string) :=
  let configured_key := bridge_api_key settings in
  if negb (opt_str_truthy configured_key) then Returns api_key_header
  else if opt_str_eqb api_key_header configured_key then Returns api_key_header
  else Raises (HTTPException HTTP_403_FORBIDDEN "Could not validate credentials" None).

(** The gate admits a request when it returns instead of raising. *)
Definition admits (settings : Settings) (api_key_header : option string) : Prop :=
  exists v, get_api_key settings api_key_header = Returns v.

(** No secret is configured: the setting is unset or empty, which is what
    [if not configured_key] tests. *)
Definition no_key_configured (settings : Settings) : Prop :=
  opt_str_truthy (bridge_api_key settings) = false.
End Auth.
Import Auth.

(* ===================================================================== *)
(** ** src/routers/tools.py *)
(* ===================================================================== *)

Definition HTTP_502_BAD_GATEWAY : Z := 502.

(** Field validation of the response models.  The values come from parsed
    JSON, so a [List[...]] field accepts exactly a list, a [Dict[str, Any]]
    field exactly a dict and a [str] field exactly a str; a [bool] field
    accepts a bool as it is, and whatever else the validator coerces. *)
Definition ValidationError (field : string) : exn := LibraryError "ValidationError" field.

Definition validate_dict (field : string) (v : json) : outcome (list (string * json)) :=
  match v with
  | JDict d => Returns d
  | _ => Raises (ValidationError field)
  end.

Definition validate_str (field : string) (v : json) : outcome string :=
  match v with
  | JStr s => Returns s
  | _ => Raises (ValidationError field)
  end.

(** A required str field of a model built from the dict [d]. *)
Definition required_str (field : string) (d : list (string * json)) : outcome string :=
  match Dict.get field d with
  | Some v => validate_str field v
  | None => Raises (ValidationError field)
  end.

(** An [Optional[str] = None] field. *)
Definition optional_str (field : string) (d : list (string * json)) : outcome (option string) :=
  match Dict.get field d with
  | None | Some JNull => Returns None
  | Some (JStr s) => Returns (Some s)
  | Some _ => Raises (ValidationError field)
  end.

Fixpoint validate_each {A : Type} (f : json -> outcome A) (l : list json) : outcome (list A) :=
  match l with
  | [] => Returns []
  | x :: rest =>
      match f x with
      | Raises e => Raises e
      | Returns a =>
          match validate_each f rest with
          | Raises e => Raises e
          | Returns r => Returns (a :: r)
          end
      end
  end.

Definition validate_list {A : Type} (field : string) (f : json -> outcome A) (v : json)
  : outcome (list A) :=
  match v with
  | JList l => validate_each f l
  | _ => Raises (ValidationError field)
  end.

Module Tools.
Record ToolExecutionRequest : Type := mkToolExecutionRequest {
  arguments : list (string * json)
}.

(** The request model built from a parsed request body: [arguments]
    defaults to an empty dict. *)
Definition ToolExecutionRequest_of_body (body : json) : outcome ToolExecutionRequest :=
  match body with
  | JDict d =>
      match Dict.get "arguments" d with
      | None => Returns {| arguments := [] |}
      | Some v =>
          match validate_dict "arguments" v with
          | Returns a => Returns {| arguments := a |}
          | Raises e => Raises e
          end
      end
  | _ => Raises (ValidationError "body")
  end.

Record ToolInfo : Type := mkToolInfo {
  name : string;
  description : string;
  inputSchema : list (string * json)
}.

Record ToolListResponse : Type := mkToolListResponse {
  tools : list ToolInfo
}.

Record ToolExecutionResponse : Type := mkToolExecutionResponse {
  content : list (list (string * json));
  isError : bool
}.

Section Routes.
Variable E : Env.
Variable settings : Settings.
(** The validator's coercion of a non-bool value given for a [bool] field. *)
Variable coerce_bool : json -> option bool.

Definition validate_bool (field : string) (v : json) : outcome bool :=
  match v with
  | JBool b => Returns b
  | _ => match coerce_bool v with
         | Some b => Returns b
         | None => Raises (ValidationError field)
         end
  end.

Definition ToolInfo_of (v : json) : outcome ToolInfo :=
  match v with
  | JDict d =>
      match required_str "name" d, required_str "description" d, Dict.get "inputSchema" d with
      | Returns n, Returns ds, Some (JDict sch) =>
          Returns {| name := n; description := ds; inputSchema := sch |}
      | Raises e, _, _ => Raises e
      | _, Raises e, _ => Raises e
      | _, _, _ => Raises (ValidationError "inputSchema")
      end
  | _ => Raises (ValidationError "tools")
  end.

(** [ToolListResponse(tools=tools)]. *)
Definition ToolListResponse_new (tools : json) : outcome ToolListResponse :=
  match validate_list "tools" ToolInfo_of tools with
  | Returns l => Returns {| tools := l |}
  | Raises e => Raises e
  end.

(** [ToolExecutionResponse(content=content, isError=is_error)]. *)
Definition ToolExecutionResponse_new (content is_error : json) : outcome ToolExecutionResponse :=
  match validate_list "content" (validate_dict "content") content with
  | Raises e => Raises e
  | Returns c =>
      match validate_bool "isError" is_error with
      | Raises e => Raises e
      | Returns b => Returns {| content := c; isError := b |}
      end
  end.

Definition list_tools : M ToolListResponse :=
  try_except
    (tools <- MCPClient.list_tools E settings ;;
     lift (ToolListResponse_new tools))
    (fun e =>
       logger_error "Failed to list tools: {e}" [AExn e] ;;
       raise (HTTPException HTTP_502_BAD_GATEWAY
                (String.append "Failed to communicate with MCP server: " (str_exn E e))
                None)).

Definition execute_tool (tool_name : string) (request : ToolExecutionRequest)
  : M ToolExecutionResponse :=
  try_except
    (logger_info "Executing tool '{tool_name}' with arguments: {request.arguments}"
                 [AStr tool_name; AJson (JDict (arguments request))] ;;
     result <- MCPClient.call_tool E settings tool_name (JDict (arguments request)) ;;
     content <- lift (py_get result "content" (JList [])) ;;
     is_error <- lift (py_get result "isError" (JBool false)) ;;
     lift (ToolExecutionResponse_new content is_error))
    (fun e =>
       logger_error "Failed to execute tool '{tool_name}': {e}" [AStr tool_name; AExn e] ;;
       raise (HTTPException HTTP_502_BAD_GATEWAY
                (String.append "Failed to execute tool on MCP server: " (str_exn E e))
                None)).
End Routes.
End Tools.

(* ===================================================================== *)
(** ** src/routers/resources.py *)
(* ===================================================================== *)

Module Resources.
Record ResourceInfo : Type := mkResourceInfo {
  uri : string;
  name : string;
  description : option string;
  mimeType : option string
}.

Record ResourceListResponse : Type := mkResourceListResponse {
  resources : list ResourceInfo
}.

Record ResourceContent : Type := mkResourceContent {
  content_uri : string;
  content_mimeType : option string;
  content_text : option string;
  content_blob : option string
}.

Record ResourceReadResponse : Type := mkResourceReadResponse {
  contents : list ResourceContent
}.

Definition ResourceInfo_of (v : json) : outcome ResourceInfo :=
  match v with
  | JDict d =>
      match required_str "uri" d, required_str "name" d,
            optional_str "description" d, optional_str "mimeType" d with
      | Returns u, Returns n, Returns ds, Returns mt =>
          Returns {| uri := u; name := n; description := ds; mimeType := mt |}
      | Raises e, _, _, _ => Raises e
      | _, Raises e, _, _ => Raises e
      | _, _, Raises e, _ => Raises e
      | _, _, _, Raises e => Raises e
      end
  | _ => Raises (ValidationError "resources")
  end.

Definition ResourceContent_of (v : json) : outcome ResourceContent :=
  match v with
  | JDict d =>
      match required_str "uri" d, optional_str "mimeType" d,
            optional_str "text" d, optional_str "blob" d with
      | Returns u, Returns mt, Returns t, Returns b =>
          Returns {| content_uri := u; content_mimeType := mt;
                     content_text := t; content_blob := b |}
      | Raises e, _, _, _ => Raises e
      | _, Raises e, _, _ => Raises e
      | _, _, Raises e, _ => Raises e
      | _, _, _, Raises e => Raises e
      end
  | _ => Raises (ValidationError "contents")
  end.

Definition ResourceListResponse_new (resources : json) : outcome ResourceListResponse :=
  match validate_list "resources" ResourceInfo_of resources with
  | Returns l => Returns {| resources := l |}
  | Raises e => Raises e
  end.

Definition ResourceReadResponse_new (contents : json) : outcome ResourceReadResponse :=
  match validate_list "contents" ResourceContent_of contents with
  | Returns l => Returns {| contents := l |}
  | Raises e => Raises e
  end.

Section Routes.
Variable E : Env.
Variable settings : Settings.

Definition list_resources : M ResourceListResponse :=
  try_except
    (resources <- MCPClient.list_resources E settings ;;
     lift (ResourceListResponse_new resources))
    (fun e =>
       logger_error "Failed to list resources: {e}" [AExn e] ;;
       raise (HTTPException HTTP_502_BAD_GATEWAY
                (String.append "Failed to communicate with MCP server: " (str_exn E e))
                None)).

Definition read_resource (uri : string) : M ResourceReadResponse :=
  try_except
    (logger_info "Reading resource: {uri}" [AStr uri] ;;
     result <- MCPClient.read_resource E settings uri ;;
     contents <- lift (py_get result "contents" (JList [])) ;;
     lift (ResourceReadResponse_new contents))
    (fun e =>
       logger_error "Failed to read resource '{uri}': {e}" [AStr uri; AExn e] ;;
       raise (HTTPException HTTP_502_BAD_GATEWAY
                (String.append "Failed to read resource from MCP server: " (str_exn E e))
                None)).
End Routes.
End Resources.

(* ===================================================================== *)
(** ** [json.loads] on bytes *)
(* ===================================================================== *)

Module PyJson.
Inductive encoding : Type :=
| utf_8 | utf_8_sig | utf_16 | utf_16_be | utf_16_le | utf_32 | utf_32_be | utf_32_le.

Definition encoding_name (enc : encoding) : string :=
  match enc with
  | utf_8 => "utf-8" | utf_8_sig => "utf-8-sig"
  | utf_16 => "utf-16" | utf_16_be => "utf-16-be" | utf_16_le => "utf-16-le"
  | utf_32 => "utf-32" | utf_32_be => "utf-32-be" | utf_32_le => "utf-32-le"
  end.

Fixpoint startswith (b prefix : bytes) : bool :=
  match prefix, b with
  | [], _ => true
  | p :: ps, x :: xs => Byte.eqb p x && startswith xs ps
  | _ :: _, [] => false
  end.

Definition BOM_UTF32_BE : bytes := [Byte.x00; Byte.x00; Byte.xfe; Byte.xff].
Definition BOM_UTF32_LE : bytes := [Byte.xff; Byte.xfe; Byte.x00; Byte.x00].
Definition BOM_UTF16_BE : bytes := [Byte.xfe; Byte.xff].
Definition BOM_UTF16_LE : bytes := [Byte.xff; Byte.xfe].
Definition BOM_UTF8 : bytes := [Byte.xef; Byte.xbb; Byte.xbf].

(** Truth value of one byte of a [bytes] object: zero is falsy. *)
Definition nonzero (x : Byte.byte) : bool := negb (Byte.eqb x Byte.x00).

(** [json.detect_encoding]. *)
Definition detect_encoding (b : bytes) : encoding :=
  if startswith b BOM_UTF32_BE || startswith b BOM_UTF32_LE then utf_32
  else if startswith b BOM_UTF16_BE || startswith b BOM_UTF16_LE then utf_16
  else if startswith b BOM_UTF8 then utf_8_sig
  else
    match b with
    | b0 :: b1 :: b2 :: b3 :: _ =>
        if negb (nonzero b0) then (if nonzero b1 then utf_16_be else utf_32_be)
        else if negb (nonzero b1)
             then (if nonzero b2 || nonzero b3 then utf_16_le else utf_32_le)
             else utf_8
    | [b0; b1] =>
        if negb (nonzero b0) then utf_16_be
        else if negb (nonzero b1) then utf_16_le
        else utf_8
    | _ => utf_8
    end.

Definition between (lo hi : N) (x : Byte.byte) : bool :=
  (N.leb lo (Byte.to_N x)) && (N.leb (Byte.to_N x) hi).

(** A continuation byte, 0x80..0xBF. *)
Definition continuation (x : Byte.byte) : bool := between 128 191 x.

(** Whether [b] decodes as UTF-8 under the [surrogatepass] handler:
    well-formed sequences, encoded surrogates included. *)
Fixpoint utf8_decodes (b : bytes) : bool :=
  match b with
  | [] => true
  | b0 :: r0 =>
      if between 0 127 b0 then utf8_decodes r0
      else
        match r0 with
        | [] => false
        | b1 :: r1 =>
            if between 194 223 b0 then continuation b1 && utf8_decodes r1
            else
              match r1 with
              | [] => false
              | b2 :: r2 =>
                  if between 224 224 b0
                  then between 160 191 b1 && continuation b2 && utf8_decodes r2
                  else if between 225 239 b0
                  then continuation b1 && continuation b2 && utf8_decodes r2
                  else
                    match r2 with
                    | [] => false
                    | b3 :: r3 =>
                        if between 240 240 b0
                        then between 144 191 b1 && continuation b2 && continuation b3
                             && utf8_decodes r3
                        else if between 241 243 b0
                        then continuation b1 && continuation b2 && continuation b3
                             && utf8_decodes r3
                        else if between 244 244 b0
                        then between 128 143 b1 && continuation b2 && continuation b3
                             && utf8_decodes r3
                        else false
                    end
              end
        end
  end.

(** What [json.loads] relies on beyond UTF-8: the decoders of the other
    encodings, and the scanner that turns decoded text into a value or
    raises ([JSONDecodeError] on malformed text). *)
Record Codec : Type := mkCodec {
  decode_wide : encoding -> bytes -> option string;
  scan : string -> outcome json
}.

(** [b.decode(enc, 'surrogatepass')]; [None] stands for
    [UnicodeDecodeError]. *)
Definition decode (C : Codec) (enc : encoding) (b : bytes) : option string :=
  match enc with
  | utf_8 => if utf8_decodes b then Some (string_of_list_byte b) else None
  | utf_8_sig =>
      let rest := if startswith b BOM_UTF8 then skipn 3 b else b in
      if utf8_decodes rest then Some (string_of_list_byte rest) else None
  | _ => decode_wide C enc b
  end.

(** [json.loads(s)] for a [bytes] argument. *)
Definition loads (C : Codec) (s : bytes) : outcome json :=
  let enc := detect_encoding s in
  match decode C enc s with
  | None => Raises (UnicodeDecodeError (encoding_name enc))
  | Some decoded => scan C decoded
  end.
End PyJson.

(** [isinstance(e, json.JSONDecodeError)]. *)
Definition is_JSONDecodeError (e : exn) : bool :=
  match e with JSONDecodeError _ => true | _ => false end.

(** [try: m  except json.JSONDecodeError: handler]: any other exception
    propagates. *)
Definition try_except_JSONDecodeError {A : Type} (m : M A) (handler : M A) : M A :=
  try_except m (fun e => if is_JSONDecodeError e then handler else raise e).

(** Truth value of a [bytes] object. *)
Definition bytes_truthy (b : bytes) : bool :=
  match b with [] => false | _ :: _ => true end.

(* ===================================================================== *)
(** ** src/middleware/logging_middleware.py *)
(* ===================================================================== *)

Module Starlette.
(** The receive channel of a request.  The server's channel delivers the
    chunks of the body in turn, and [http.disconnect] once the client is
    gone.  The [receive] that [dispatch] installs returns the same
    [http.request] message, holding the whole body, on every call: a reader
    of the body gets the body, and a reader that waits for
    [http.disconnect] never gets it. *)
Inductive channel : Type :=
| Stream (chunks : list bytes)
| Repeating (message : bytes).

(** An inbound request. *)
Record Request : Type := mkRequest {
  method : string;
  path : string;
  headers : list (string * string);
  _receive : channel
}.

(** A response: status, headers, and the chunks its body iterator yields. *)
Record Response : Type := mkResponse {
  status_code : Z;
  response_headers : list (string * string);
  body_iterator : list bytes
}.

(** The body a reader of the request observes: every chunk of the
    stream, in order, or the one message of a repeating channel. *)
Definition observed_body (r : Request) : bytes :=
  match _receive r with
  | Stream chunks => List.concat chunks
  | Repeating message => message
  end.

(** Whether [http.disconnect] ever comes out of the channel. *)
Definition disconnects (r : Request) : bool :=
  match _receive r with
  | Stream _ => true
  | Repeating _ => false
  end.

(** The body the caller receives. *)
Definition sent_body (r : Response) : bytes := List.concat (body_iterator r).

(** What is left in the channel once the body has been read. *)
Definition drained (c : channel) : channel :=
  match c with
  | Stream _ => Stream []
  | Repeating message => Repeating message
  end.

(** [await request.body()], called by the interceptor: reads the body off
    the receive channel. *)
Definition body (r : Request) : M (bytes * Request) :=
  let b := observed_body r in
  emit (EvRequestBodyRead b) ;;
  ret (b, {| method := method r; path := path r; headers := headers r;
             _receive := drained (_receive r) |}).

(** [request._receive = receive], where [receive] is
    [async def receive(): return {"type": "http.request", "body": body}]:
    every call returns the message holding [b]. *)
Definition set_receive (r : Request) (b : bytes) : Request :=
  {| method := method r; path := path r; headers := headers r;
     _receive := Repeating b |}.

(** [request.headers.get(name)], names being stored in lower case. *)
Fixpoint header (name : string) (hs : list (string * string)) : option string :=
  match hs with
  | [] => None
  | (k, v) :: rest => if String.eqb k name then Some v else header name rest
  end.
End Starlette.

Module Logging.
Section Middleware.
Variable E : Env.
Variable C : PyJson.Codec.
Variable settings : Settings.

(** [iterate_in_chunks(content)]: one chunk. *)
Definition iterate_in_chunks (content : bytes) : list bytes := [content].

(** [json.loads(b) if b else {}]. *)
Definition loads_or_empty (b : bytes) : M json :=
  if bytes_truthy b then lift (PyJson.loads C b) else ret (JDict []).

(** What is logged when a body is not JSON:
    [b.decode("utf-8", errors="replace") if b else "<Empty body>"]. *)
Definition raw_log (b : bytes) : logarg :=
  if bytes_truthy b then ABytes b else AStr "<Empty body>".

(** [RequestLoggingMiddleware.dispatch]. *)
Definition dispatch (request : Starlette.Request)
           (call_next : Starlette.Request -> M Starlette.Response)
  : M Starlette.Response :=
  if negb (bridge_log_payloads settings) then call_next request
  else
    request_id <- time_now E ;;
    let path := Starlette.path request in
    let method := Starlette.method request in
    br <- Starlette.body request ;;
    let body := fst br in
    let request := Starlette.set_receive (snd br) body in
    payload_log <- try_except_JSONDecodeError
                     (body_json <- loads_or_empty body ;;
                      ret (AJson body_json))
                     (ret (raw_log body)) ;;
    logger_info "[AUDIT] [{request_id}] Incoming {method} {path} Headers: {dict(request.headers)} Payload: {payload_log}"
                [AInt request_id; AStr method; AStr path;
                 AHeaders (Starlette.headers request); payload_log] ;;
    start_time <- time_now E ;;
    response <- call_next request ;;
    end_time <- time_now E ;;
    let duration := end_time - start_time in
    let response_body := List.concat (Starlette.body_iterator response) in
    emit (EvResponseBodyDrained response_body) ;;
    let response :=
      {| Starlette.status_code := Starlette.status_code response;
         Starlette.response_headers := Starlette.response_headers response;
         Starlette.body_iterator := iterate_in_chunks response_body |} in
    resp_log <- try_except_JSONDecodeError
                  (resp_json <- loads_or_empty response_body ;;
                   ret (match resp_json with
                        | JDict _ => AJson resp_json
                        | _ => AStr (py_str E resp_json)
                        end))
                  (ret (raw_log response_body)) ;;
    logger_info "[AUDIT] [{request_id}] Outgoing {method} {path} - Status: {response.status_code} - Duration: {duration:.3f}s Response Payload: {resp_log}"
                [AInt request_id; AStr method; AStr path;
                 AInt (Starlette.status_code response); AInt duration; resp_log] ;;
    ret response.
End Middleware.
End Logging.

(* ===================================================================== *)
(** ** src/config.py: the list of CORS origins *)
(* ===================================================================== *)

Module Cors.
(** [s.split(",")]: the pieces between commas, empty pieces included. *)
Fixpoint split_comma (s : string) : list string :=
  match s with
  | EmptyString => [EmptyString]
  | String a rest =>
      if Ascii.eqb a ","%char then EmptyString :: split_comma rest
      else match split_comma rest with
           | piece :: pieces => String a piece :: pieces
           | [] => [String a EmptyString]
           end
  end.

Definition code (a : ascii) : N := N_of_ascii a.

(** The whitespace characters below U+0080: U+0009..U+000D, U+001C..U+0020. *)
Definition ascii_space (a : ascii) : bool :=
  ((9 <=? code a) && (code a <=? 13) || (28 <=? code a) && (code a <=? 32))%N.

(** The two-byte whitespace characters, U+0085 and U+00A0. *)
Definition space2 (b0 b1 : ascii) : bool :=
  ((code b0 =? 194) && ((code b1 =? 133) || (code b1 =? 160)))%N.

(** The three-byte whitespace characters: U+1680, U+2000..U+200A, U+2028,
    U+2029, U+202F, U+205F and U+3000. *)
Definition space3 (b0 b1 b2 : ascii) : bool :=
  ((code b0 =? 225) && (code b1 =? 154) && (code b2 =? 128)
   || (code b0 =? 226) && (code b1 =? 128)
      && ((128 <=? code b2) && (code b2 <=? 138)
          || (code b2 =? 168) || (code b2 =? 169) || (code b2 =? 175))
   || (code b0 =? 226) && (code b1 =? 129) && (code b2 =? 159)
   || (code b0 =? 227) && (code b1 =? 128) && (code b2 =? 128))%N.

(** One whitespace character at the head of [l]: what follows it. *)
Definition space_prefix (l : list ascii) : option (list ascii) :=
  match l with
  | [] => None
  | b0 :: r0 =>
      if ascii_space b0 then Some r0
      else match r0 with
           | [] => None
           | b1 :: r1 =>
               if space2 b0 b1 then Some r1
               else match r1 with
                    | [] => None
                    | b2 :: r2 => if space3 b0 b1 b2 then Some r2 else None
                    end
           end
  end.

(** One whitespace character at the end of a text given back to front:
    what precedes it, back to front. *)
Definition space_suffix (l : list ascii) : option (list ascii) :=
  match l with
  | [] => None
  | b2 :: r0 =>
      if ascii_space b2 then Some r0
      else match r0 with
           | [] => None
           | b1 :: r1 =>
               if space2 b1 b2 then Some r1
               else match r1 with
                    | [] => None
                    | b0 :: r2 => if space3 b0 b1 b2 then Some r2 else None
                    end
           end
  end.

(** Drops whitespace characters at the head, at most [n] of them. *)
Fixpoint drop_spaces (next : list ascii -> option (list ascii)) (n : nat) (l : list ascii)
  : list ascii :=
  match n with
  | O => l
  | S n' => match next l with
            | Some rest => drop_spaces next n' rest
            | None => l
            end
  end.

(** [s.lstrip()] and [s.rstrip()] on the bytes of [s]. *)
Definition lstrip (l : list ascii) : list ascii := drop_spaces space_prefix (List.length l) l.
Definition rstrip (l : list ascii) : list ascii :=
  rev (drop_spaces space_suffix (List.length l) (rev l)).

(** [s.strip()]. *)
Definition strip (s : string) : string :=
  string_of_list_ascii (rstrip (lstrip (list_ascii_of_string s))).

(** The [cors_origins_list] property of [Settings]. *)
Definition cors_origins_list (self : Settings) : list string :=
  if String.eqb (cors_origins self) "*" then ["*"]
  else map strip (split_comma (cors_origins self)).

(** The number of commas in [s]. *)
Fixpoint commas (s : string) : nat :=
  match s with
  | EmptyString => O
  | String a rest => if Ascii.eqb a ","%char then S (commas rest) else commas rest
  end.
End Cors.

(* ===================================================================== *)
(** ** src/main.py *)
(* ===================================================================== *)

Module Main.
(** What the application takes from the libraries under it: whether
    FastAPI takes a [Content-Type] for a JSON one, and, for Starlette's
    [CORSMiddleware] built with a list of allowed origins, its answer to a
    preflight request (given the request headers) and the headers it makes
    of a response's headers for a request that carries an [Origin]. *)
Record Framework : Type := mkFramework {
  is_json_content_type : string -> bool;
  preflight_response : list string -> list (string * string) -> Starlette.Response;
  simple_headers : list string -> list (string * string) -> list (string * string)
                   -> list (string * string)
}.

(** What FastAPI hands to a route for its body parameter: nothing when the
    route declares none or the body is empty, the parsed JSON, or the raw
    bytes of a body whose content type is not JSON. *)
Inductive route_body : Type :=
| NoBody
| BodyJson (j : json)
| BodyBytes (b : bytes).

(** FastAPI's [RequestValidationError], holding the text that failed to
    parse. *)
Definition RequestValidationError (doc : string) : exn :=
  LibraryError "RequestValidationError" doc.

(** [isinstance(e, RequestValidationError)]. *)
Definition is_RequestValidationError (e : exn) : bool :=
  match e with
  | LibraryError class_name _ => String.eqb class_name "RequestValidationError"
  | _ => false
  end.

(** How [CORSMiddleware] treats a request: without an [Origin] header it
    is not a CORS request; an [OPTIONS] request that names an
    [Access-Control-Request-Method] is a preflight; any other is a simple
    CORS request. *)
Inductive cors_request : Type := NotCors | Preflight | Simple.

Definition classify (request : Starlette.Request) : cors_request :=
  match Starlette.header "origin" (Starlette.headers request) with
  | None => NotCors
  | Some _ =>
      if String.eqb (Starlette.method request) "OPTIONS"
         && match Starlette.header "access-control-request-method"
                                   (Starlette.headers request) with
            | Some _ => true
            | None => false
            end
      then Preflight
      else Simple
  end.

Section App.
Variable E : Env.
Variable C : PyJson.Codec.
Variable settings : Settings.
(** [src/middleware/error_handler.py] is not part of the sources at hand:
    the three handlers that [main.py] registers, for [HTTPException], for
    [RequestValidationError] and for [Exception], are taken as given. *)
Variable http_exception_handler : exn -> Starlette.Response.
Variable validation_exception_handler : exn -> Starlette.Response.
Variable general_exception_handler : exn -> Starlette.Response.
Variable F : Framework.

(** [lifespan], before the [yield]. *)
Definition lifespan_startup : M unit :=
  logger_info "Starting Splunk MCP Bridge..." [] ;;
  logger_info "Bridge service running on {settings.bridge_host}:{settings.bridge_port}"
              [AStr (bridge_host settings); AInt (bridge_port settings)] ;;
  logger_info "Connecting to Splunk MCP Server at {settings.splunk_mcp_server_url}"
              [AStr (splunk_mcp_server_url settings)] ;;
  try_except
    (MCPClient.connect E settings ;;
     logger_info "Successfully connected to Splunk MCP Server" [])
    (fun e =>
       logger_error "Failed to connect to MCP server: {e}" [AExn e] ;;
       logger_warning "Bridge will attempt to connect on first request" []).

(** [lifespan], after the [yield]. *)
Definition lifespan_shutdown : M unit :=
  logger_info "Shutting down Splunk MCP Bridge..." [] ;;
  MCPClient.disconnect ;;
  logger_info "Shutdown complete" [].

Definition root : M json :=
  ret (JDict [("service", JStr "Splunk MCP Bridge");
              ("version", JStr "0.1.0");
              ("status", JStr "running");
              ("mcp_server", JStr (splunk_mcp_server_url settings))]).

Definition healthy_payload : json :=
  JDict [("status", JStr "healthy"); ("mcp_connection", JStr "connected")].

Definition degraded_payload (error : string) : json :=
  JDict [("status", JStr "degraded");
         ("mcp_connection", JStr "disconnected");
         ("error", JStr error)].

Definition health_check : M json :=
  try_except
    (MCPClient.list_tools E settings ;;
     ret healthy_payload)
    (fun e =>
       logger_warning "Health check failed: {e}" [AExn e] ;;
       ret (degraded_payload (str_exn E e))).

(** What FastAPI makes of the body of a request to a route with a body
    parameter: an empty body is [None]; a body whose content type is
    absent or JSON goes through [json.loads], where [JSONDecodeError]
    becomes [RequestValidationError] and any other exception
    [HTTPException(400)]; any other body is handed over as bytes. *)
Definition parse_body (request : Starlette.Request) : outcome route_body :=
  let body_bytes := Starlette.observed_body request in
  if bytes_truthy body_bytes then
    if match Starlette.header "content-type" (Starlette.headers request) with
       | None => true
       | Some content_type => is_json_content_type F content_type
       end
    then match PyJson.loads C body_bytes with
         | Returns j => Returns (BodyJson j)
         | Raises (JSONDecodeError doc) => Raises (RequestValidationError doc)
         | Raises _ =>
             Raises (HTTPException 400 "There was an error parsing the body" None)
         end
    else Returns (BodyBytes body_bytes)
  else Returns NoBody.

(** FastAPI's request handler, for a route with a body parameter, before
    it solves the route's dependencies: [await request.body()] and the
    parse. *)
Definition read_body (request : Starlette.Request) : M route_body :=
  emit (EvRouteBodyRead (Starlette.observed_body request)) ;;
  lift (parse_body request).

(** [include_router(..., dependencies=[Depends(get_api_key)])]: a route of
    [tools_router] or [resources_router].  FastAPI first reads and parses
    the body when the route declares a body parameter ([body_field]: only
    [execute_tool] does), then solves the dependencies, that is, evaluates
    the gate on the [X-API-Key] header, and runs the endpoint only if the
    gate returns.  [endpoint] stands for the validation of the body against
    the route's model, the handler, and the rendering of its result. *)
Definition with_api_key (body_field : bool) (request : Starlette.Request)
           (endpoint : Starlette.Request -> route_body -> M Starlette.Response)
  : M Starlette.Response :=
  body <- (if body_field then read_body request else ret NoBody) ;;
  lift (get_api_key settings (Starlette.header "x-api-key" (Starlette.headers request))) ;;
  endpoint request body.

(** Starlette's [ExceptionMiddleware] with the handlers of
    [add_exception_handler(StarletteHTTPException, http_exception_handler)]
    and [add_exception_handler(RequestValidationError,
    validation_exception_handler)]: an exception of either class raised
    while routing becomes a response, any other propagates. *)
Definition exception_middleware (m : M Starlette.Response) : M Starlette.Response :=
  try_except m
    (fun e =>
       match e with
       | HTTPException _ _ _ => ret (http_exception_handler e)
       | _ => if is_RequestValidationError e
              then ret (validation_exception_handler e)
              else raise e
       end).

(** What [CORSMiddleware] makes of the response to a simple CORS request:
    the headers change, status and body do not. *)
Definition with_cors_headers (request : Starlette.Request) (response : Starlette.Response)
  : Starlette.Response :=
  {| Starlette.status_code := Starlette.status_code response;
     Starlette.response_headers :=
       simple_headers F (Cors.cors_origins_list settings) (Starlette.headers request)
                      (Starlette.response_headers response);
     Starlette.body_iterator := Starlette.body_iterator response |}.

(** [add_middleware(CORSMiddleware, allow_origins=settings.cors_origins_list,
    allow_credentials=True, allow_methods=["*"], allow_headers=["*"])]:
    a request without [Origin] passes through untouched, a preflight is
    answered on the spot, and the response to any other request gets the
    CORS headers. *)
Definition CORSMiddleware (call_app : Starlette.Request -> M Starlette.Response)
           (request : Starlette.Request) : M Starlette.Response :=
  match classify request with
  | NotCors => call_app request
  | Preflight =>
      ret (preflight_response F (Cors.cors_origins_list settings)
                              (Starlette.headers request))
  | Simple =>
      response <- call_app request ;;
      ret (with_cors_headers request response)
  end.

(** Starlette's [ServerErrorMiddleware] with the handler of
    [add_exception_handler(Exception, general_exception_handler)]: the
    caller of a request during which an exception escapes gets the
    handler's response. *)
Definition server_error_middleware (m : M Starlette.Response) : M Starlette.Response :=
  try_except m (fun e => ret (general_exception_handler e)).

(** A request to a gated route, through the application.  Starlette
    stacks the middleware so that the one added last is outermost:
    [ServerErrorMiddleware], then [RequestLoggingMiddleware] (added after
    [CORSMiddleware]), then [CORSMiddleware], then [ExceptionMiddleware],
    then the routing. *)
Definition app (body_field : bool) (request : Starlette.Request)
           (endpoint : Starlette.Request -> route_body -> M Starlette.Response)
  : M Starlette.Response :=
  server_error_middleware
    (Logging.dispatch E C settings request
       (CORSMiddleware
          (fun r => exception_middleware (with_api_key body_field r endpoint)))).
End App.
End Main.

(* ===================================================================== *)
(** ** Observations on traces and outcomes *)
(* ===================================================================== *)

(** The upstream calls recorded in a trace. *)
Fixpoint posts (t : list event) : list (Httpx.AsyncClient * string * json) :=
  match t with
  | [] => []
  | EvPost c p payload :: rest => (c, p, payload) :: posts rest
  | _ :: rest => posts rest
  end.

(** Whether a str holds a lone surrogate: in the encoding of the text, the
    byte 0xED followed by a byte from 0xA0 to 0xBF. *)
Fixpoint has_surrogate (s : string) : bool :=
  match s with
  | EmptyString => false
  | String a rest =>
      match rest with
      | String b _ =>
          ((N_of_ascii a =? 237) && (160 <=? N_of_ascii b) && (N_of_ascii b <=? 191))%N
      | EmptyString => false
      end || has_surrogate rest
  end.

(** The [repr] of the floats JSON has no notation for. *)
Definition non_finite (literal : string) : bool :=
  String.eqb literal "inf" || String.eqb literal "-inf" || String.eqb literal "nan".

(** Whether [httpx] can encode a payload given as [json=payload]: it runs
    [json.dumps(payload, ensure_ascii=False, allow_nan=False)], which
    raises [ValueError] on a non-finite float, and encodes the text as
    UTF-8, which raises on a lone surrogate.  Nothing is sent when the
    encoding raises. *)
Fixpoint json_compliant (j : json) : bool :=
  match j with
  | JFloat literal => negb (non_finite literal)
  | JStr s => negb (has_surrogate s)
  | JList l => forallb json_compliant l
  | JDict d =>
      forallb (fun kv => match kv with
                         | (k, v) => negb (has_surrogate k) && json_compliant v
                         end) d
  | _ => true
  end.

(** The requests that left the client: the calls of [post] whose payload
    could be encoded. *)
Definition requests_sent (t : list event) : list (Httpx.AsyncClient * string * json) :=
  filter (fun call => json_compliant (snd call)) (posts t).

(** [httpx]'s [post] over a network [wire]: the payload is encoded first,
    and the wire is reached only if that succeeds. *)
Definition httpx_post (wire : Httpx.AsyncClient -> string -> json -> outcome Response)
           (c : Httpx.AsyncClient) (path : string) (payload : json) : outcome Response :=
  if json_compliant payload then wire c path payload
  else Raises (LibraryError "ValueError"
                            "Out of range float values are not JSON compliant").

(** The request bodies the interceptor has read. *)
Fixpoint bodies_read (t : list event) : list bytes :=
  match t with
  | [] => []
  | EvRequestBodyRead b :: rest => b :: bodies_read rest
  | _ :: rest => bodies_read rest
  end.

Definition is_failure_status (status : Z) : bool :=
  (400 <=? status) && (status <=? 599).

(** The arguments [connect] builds the HTTP client with. *)
Definition client_args (settings : Settings) (self : MCPClient_t) : Httpx.AsyncClient :=
  {| Httpx.base_url := server_url self;
     Httpx.timeout := timeout self;
     Httpx.headers := if str_truthy (auth_token self)
                      then [("Authorization", String.append "Bearer " (auth_token self))]
                      else [];
     Httpx.verify := splunk_mcp_server_verify_ssl settings |}.

(** The client a call made in world [w] goes through: the one at hand, or
    the one [connect] builds. *)
Definition client_for (E : Env) (settings : Settings) (w : World) : outcome Httpx.AsyncClient :=
  match _http_client (mcp_client w) with
  | Some c => Returns c
  | None =>
      match AsyncClient_init E (client_args settings (mcp_client w)) with
      | Some e => Raises e
      | None => Returns (client_args settings (mcp_client w))
      end
  end.

(** What [_send_request] makes of a response it has received; lemma
    [send_request_connected] below ties it to the code. *)
Definition result_of_response (E : Env) (log_payloads : bool) (r : Response) : outcome json :=
  let parsed :=
    match json_body r with
    | Some j => Returns j
    | None =>
        if log_payloads
        then Returns (JDict [("error", JStr "Non-JSON response from Splunk");
                             ("raw", JStr (text r))])
        else Raises (JSONDecodeError (text r))
    end in
  match parsed with
  | Raises e => Raises e
  | Returns result =>
      match Httpx.raise_for_status r with
      | Raises e => Raises e
      | Returns _ =>
          match py_in "error" result with
          | Raises e => Raises e
          | Returns true =>
              match py_getitem result "error" with
              | Raises e => Raises e
              | Returns err => Raises (Exception_ (String.append "MCP error: " (py_str E err)))
              end
          | Returns false => py_get result "result" (JDict [])
          end
      end
  end.

(** A protocol failure carrying the upstream error object [err]. *)
Definition protocol_failure (E : Env) (err : json) : exn :=
  Exception_ (String.append "MCP error: " (py_str E err)).

(** The outcome of the exchange with the upstream, as [_send_request]
    reports it. *)
Definition exchange (E : Env) (settings : Settings)
           (c : Httpx.AsyncClient) (m : string) (p : json) (i : Z) : outcome json :=
  match http_post E c "/" (MCPClient.envelope m p i) with
  | Returns r => result_of_response E (bridge_log_payloads settings) r
  | Raises e => Raises e
  end.

(** What a route handler's [except Exception] clause turns a failure
    into: a 502 whose detail is [prefix] followed by [str(e)]. *)
Definition bad_gateway {A : Type} (E : Env) (prefix : string) (o : outcome A) : outcome A :=
  match o with
  | Returns a => Returns a
  | Raises e =>
      Raises (HTTPException HTTP_502_BAD_GATEWAY (String.append prefix (str_exn E e)) None)
  end.

(** How [execute_tool] shapes the result of [call_tool]. *)
Definition shape_tool_result (coerce_bool : json -> option bool) (result : json)
  : outcome Tools.ToolExecutionResponse :=
  match py_get result "content" (JList []) with
  | Raises e => Raises e
  | Returns content =>
      match py_get result "isError" (JBool false) with
      | Raises e => Raises e
      | Returns is_error => Tools.ToolExecutionResponse_new coerce_bool content is_error
      end
  end.

(** How the [read_resource] route shapes the result of the client's
    [read_resource]. *)
Definition shape_read_result (result : json) : outcome Resources.ResourceReadResponse :=
  match py_get result "contents" (JList []) with
  | Raises e => Raises e
  | Returns contents => Resources.ResourceReadResponse_new contents
  end.

(** Sequencing of outcomes. *)
Definition and_then {A B : Type} (o : outcome A) (k : A -> outcome B) : outcome B :=
  match o with
  | Returns a => k a
  | Raises e => Raises e
  end.

(** The payload the interceptor logs for an inbound body, or the exception
    its parse lets through. *)
Definition body_log (C : PyJson.Codec) (b : bytes) : outcome logarg :=
  if bytes_truthy b
  then match PyJson.loads C b with
       | Returns j => Returns (AJson j)
       | Raises e => if is_JSONDecodeError e then Returns (Logging.raw_log b) else Raises e
       end
  else Returns (AJson (JDict [])).

(** The same for an outbound body. *)
Definition response_log (E : Env) (C : PyJson.Codec) (b : bytes) : outcome logarg :=
  if bytes_truthy b
  then match PyJson.loads C b with
       | Returns (JDict d) => Returns (AJson (JDict d))
       | Returns j => Returns (AStr (py_str E j))
       | Raises e => if is_JSONDecodeError e then Returns (Logging.raw_log b) else Raises e
       end
  else Returns (AJson (JDict [])).

(** The request the interceptor hands to [call_next] when auditing is on. *)
Definition replayed (request : Starlette.Request) : Starlette.Request :=
  {| Starlette.method := Starlette.method request;
     Starlette.path := Starlette.path request;
     Starlette.headers := Starlette.headers request;
     Starlette._receive := Starlette.Repeating (Starlette.observed_body request) |}.

(** The response the interceptor returns when auditing is on. *)
Definition rebuilt (response : Starlette.Response) : Starlette.Response :=
  {| Starlette.status_code := Starlette.status_code response;
     Starlette.response_headers := Starlette.response_headers response;
     Starlette.body_iterator := [Starlette.sent_body response] |}.





(** A concrete environment, for running the definitions: a clock that
    ticks, a client constructor that succeeds, an upstream that answers
    every call with the given response. *)
Module Demo.
Definition env (r : Response) : Env :=
  {| time_time := fun n => Z.of_nat n;
     AsyncClient_init := fun _ => None;
     http_post := fun _ _ _ => Returns r;
     py_str := fun j => match j with JStr s => s | _ => "<value>" end;
     exn_message := fun e =>
                      match e with
                      | HTTPStatusError _ => "HTTPStatusError"
                      | JSONDecodeError _ => "JSONDecodeError"
                      | _ => "error"
                      end |}.

(** A codec that knows the empty object only. *)
Definition codec : PyJson.Codec :=
  {| PyJson.decode_wide := fun _ _ => None;
     PyJson.scan := fun s => if String.eqb s "{}" then Returns (JDict [])
                             else Raises (JSONDecodeError s) |}.

Definition http_exception_handler (e : exn) : Starlette.Response :=
  match e with
  | HTTPException status detail _ =>
      {| Starlette.status_code := status;
         Starlette.response_headers := [];
         Starlette.body_iterator := [list_byte_of_string detail] |}
  | _ => {| Starlette.status_code := 500;
            Starlette.response_headers := [];
            Starlette.body_iterator := [] |}
  end.

Definition validation_exception_handler (e : exn) : Starlette.Response :=
  {| Starlette.status_code := 422;
     Starlette.response_headers := [];
     Starlette.body_iterator := [list_byte_of_string "Validation error"] |}.

Definition general_exception_handler (e : exn) : Starlette.Response :=
  {| Starlette.status_code := 500;
     Starlette.response_headers := [];
     Starlette.body_iterator := [list_byte_of_string "Internal server error"] |}.

(** A framework that takes [application/json] for JSON, answers a
    preflight with an empty 200, and adds one header for a CORS request. *)
Definition framework : Main.Framework :=
  {| Main.is_json_content_type := fun content_type => String.eqb content_type "application/json";
     Main.preflight_response := fun _ _ =>
       {| Starlette.status_code := 200;
          Starlette.response_headers := [];
          Starlette.body_iterator := [list_byte_of_string "OK"] |};
     Main.simple_headers := fun _ _ hs => hs ++ [("access-control-allow-origin", "*")] |}.

(** An upstream that answers every call that reaches it with [r], behind
    a client that encodes the payload first. *)
Definition httpx_env (r : Response) : Env :=
  {| time_time := fun n => Z.of_nat n;
     AsyncClient_init := fun _ => None;
     http_post := httpx_post (fun _ _ _ => Returns r);
     py_str := fun j => match j with JStr s => s | _ => "<value>" end;
     exn_message := fun e =>
                      match e with
                      | LibraryError _ message => message
                      | _ => "error"
                      end |}.

Definition settings_with (key : option string) (log_payloads : bool) : Settings :=
  {| bridge_host := bridge_host defaults;
     bridge_port := bridge_port defaults;
     splunk_mcp_server_url := splunk_mcp_server_url defaults;
     splunk_mcp_auth_token := splunk_mcp_auth_token defaults;
     splunk_mcp_server_timeout := splunk_mcp_server_timeout defaults;
     splunk_mcp_server_verify_ssl := splunk_mcp_server_verify_ssl defaults;
     bridge_api_key := key;
     log_level := log_level defaults;
     bridge_log_payloads := log_payloads;
     cors_origins := cors_origins defaults |}.

(** The world at start-up: a fresh client object, nothing done yet. *)
Definition world0 (settings : Settings) : World :=
  {| mcp_client := MCPClient.__init__ settings; trace := []; clock := 0 |}.

Definition ok_response (body : json) : Response :=
  {| status_code := 200; text := "<json>"; json_body := Some body |}.


Definition html_500 : Response :=
  {| status_code := 500; text := "<html>Internal Server Error</html>"; json_body := None |}.

Definition html_200 : Response :=
  {| status_code := 200; text := "<html>It works</html>"; json_body := None |}.
End Demo.

(** The clients closed so far. *)
Fixpoint closes (t : list event) : list Httpx.AsyncClient :=
  match t with
  | [] => []
  | EvAclose c :: rest => c :: closes rest
  | _ :: rest => closes rest
  end.

(** The clients built so far. *)
Fixpoint builds (t : list event) : list Httpx.AsyncClient :=
  match t with
  | [] => []
  | EvClientBuilt c :: rest => c :: builds rest
  | _ :: rest => builds rest
  end.

(** The lines logged so far. *)
Fixpoint logged (t : list event) : list (level * string * list logarg) :=
  match t with
  | [] => []
  | EvLog lvl template args :: rest => (lvl, template, args) :: logged rest
  | _ :: rest => logged rest
  end.

(** More environments to run the definitions in. *)
Module Fixtures.
(** The client constructor raises. *)
Definition unbuildable (e : exn) : Env :=
  {| time_time := fun n => Z.of_nat n;
     AsyncClient_init := fun _ => Some e;
     http_post := fun _ _ _ => Raises (LibraryError "ConnectError" "unreachable");
     py_str := py_str (Demo.env Demo.html_200);
     exn_message := fun x => match x with
                             | LibraryError _ message => message
                             | _ => "error"
                             end |}.

(** The exchange with the upstream raises (connection refused, timeout). *)
Definition unreachable (e : exn) : Env :=
  {| time_time := fun n => Z.of_nat n;
     AsyncClient_init := fun _ => None;
     http_post := fun _ _ _ => Raises e;
     py_str := py_str (Demo.env Demo.html_200);
     exn_message := fun x => match x with
                             | LibraryError _ message => message
                             | _ => "error"
                             end |}.

Definition InvalidURL : exn := LibraryError "InvalidURL" "malformed base URL".
Definition ReadTimeout : exn := LibraryError "ReadTimeout" "timed out".

(** A world whose client is connected with the default settings. *)
Definition connected0 : World :=
  {| mcp_client := {| server_url := splunk_mcp_server_url defaults;
                      auth_token := splunk_mcp_auth_token defaults;
                      timeout := splunk_mcp_server_timeout defaults;
                      _http_client := Some (client_args defaults
                                              (MCPClient.__init__ defaults)) |};
     trace := [];
     clock := 0 |}.
End Fixtures.

(** The world once [ev] has happened. *)
Definition after (w : World) (ev : event) : World :=
  {| mcp_client := mcp_client w; trace := trace w ++ [ev]; clock := clock w |}.

(** The "Incoming" line the interceptor logs for an exchange whose
    identifier is [rid]. *)
Definition incoming_line (rid : Z) (request : Starlette.Request) (payload_log : logarg) : event :=
  EvLog INFO
        "[AUDIT] [{request_id}] Incoming {method} {path} Headers: {dict(request.headers)} Payload: {payload_log}"
        [AInt rid; AStr (Starlette.method request); AStr (Starlette.path request);
         AHeaders (Starlette.headers request); payload_log].

(** The "Outgoing" line of the same exchange. *)
Definition outgoing_line (rid : Z) (request : Starlette.Request)
           (status duration : Z) (resp_log : logarg) : event :=
  EvLog INFO
        "[AUDIT] [{request_id}] Outgoing {method} {path} - Status: {response.status_code} - Duration: {duration:.3f}s Response Payload: {resp_log}"
        [AInt rid; AStr (Starlette.method request); AStr (Starlette.path request);
         AInt status; AInt duration; resp_log].

(** The world in which the interceptor, auditing on, runs [call_next]: the
    body has been read, the "Incoming" line logged, the clock read twice. *)
Definition handler_world (E : Env) (w : World) (request : Starlette.Request)
           (payload_log : logarg) : World :=
  {| mcp_client := mcp_client w;
     trace := trace w ++ [EvRequestBodyRead (Starlette.observed_body request);
                          incoming_line (time_time E (clock w)) request payload_log];
     clock := S (S (clock w)) |}.

Module Samples.
(** A POST of the body [{}] with no headers. *)
Definition post_empty_object : Starlette.Request :=
  {| Starlette.method := "POST";
     Starlette.path := "/api/tools/search";
     Starlette.headers := [];
     Starlette._receive :=
       Starlette.Stream [list_byte_of_string "{"; list_byte_of_string "}"] |}.

(** A request without a body. *)
Definition get_tools : Starlette.Request :=
  {| Starlette.method := "GET";
     Starlette.path := "/api/tools";
     Starlette.headers := [("x-api-key", "secret")];
     Starlette._receive := Starlette.Stream [] |}.

(** A handler's response, its body in two chunks. *)
Definition chunked : Starlette.Response :=
  {| Starlette.status_code := 200;
     Starlette.response_headers := [("content-type", "text/plain")];
     Starlette.body_iterator := [list_byte_of_string "not "; list_byte_of_string "json"] |}.

(** A handler's response whose body is one byte that is not UTF-8. *)
Definition binary : Starlette.Response :=
  {| Starlette.status_code := 200;
     Starlette.response_headers := [("content-type", "application/octet-stream")];
     Starlette.body_iterator := [[Byte.x80]] |}.

Definition answers (response : Starlette.Response) : Starlette.Request -> M Starlette.Response :=
  fun _ => ret response.

Definition fails (e : exn) : Starlette.Request -> M Starlette.Response :=
  fun _ => raise e.
End Samples.

(** An origin without whitespace at either end. *)
Definition trimmed (o : string) : Prop :=
  Cors.space_prefix (list_ascii_of_string o) = None
  /\ Cors.space_suffix (rev (list_ascii_of_string o)) = None.

Definition settings_with_origins (origins : string) : Settings :=
  {| bridge_host := bridge_host defaults;
     bridge_port := bridge_port defaults;
     splunk_mcp_server_url := splunk_mcp_server_url defaults;
     splunk_mcp_auth_token := splunk_mcp_auth_token defaults;
     splunk_mcp_server_timeout := splunk_mcp_server_timeout defaults;
     splunk_mcp_server_verify_ssl := splunk_mcp_server_verify_ssl defaults;
     bridge_api_key := bridge_api_key defaults;
     log_level := log_level defaults;
     bridge_log_payloads := bridge_log_payloads defaults;
     cors_origins := origins |}.

Ltac unfold_py :=
  unfold bind, get_self, when, lift, try_except, ret, raise,
    logger_info, logger_error, logger_warning, emit, set_http_client in *.

(** Closes a goal [exists w' evs, run = (o, w') /\ ... /\ trace w' = t ++ evs /\ ...]
    once the run has been evaluated. *)
Ltac finish_run :=
  do 2 eexists; repeat split; cbn; rewrite <- ?app_assoc; cbn; reflexivity.

(* ===================================================================== *)
(** ** Properties *)
(* ===================================================================== *)

Lemma opt_str_eqb_eq (a b : option string) : opt_str_eqb a b = true <-> a = b.
Proof.
  destruct a as [x|], b as [y|]; simpl; try (split; congruence).
  rewrite String.eqb_eq. split; congruence.
Qed.

Lemma posts_app (a b : list event) : posts (a ++ b) = posts a ++ posts b.
Proof.
  induction a as [|ev a IH]; simpl; [reflexivity|].
  destruct ev; simpl; rewrite ?IH; reflexivity.
Qed.

Lemma bodies_read_app (a b : list event) :
  bodies_read (a ++ b) = bodies_read a ++ bodies_read b.
Proof.
  induction a as [|ev a IH]; simpl; [reflexivity|].
  destruct ev; simpl; rewrite ?IH; reflexivity.
Qed.

(* --------------------------------------------------------------------- *)
(** *** The definitions at work *)
(* --------------------------------------------------------------------- *)

Example str_contains_error : str_contains "error" "some error" = true.
Proof. reflexivity. Qed.

Example py_in_on_int : py_in "error" (JInt 5) = Raises (TypeError "argument is not iterable").
Proof. reflexivity. Qed.

Example gate_open_mode :
  get_api_key (Demo.settings_with None false) None = Returns None.
Proof. reflexivity. Qed.

Example gate_empty_key_is_open_mode :
  get_api_key (Demo.settings_with (Some "") false) (Some "anything") = Returns (Some "anything").
Proof. reflexivity. Qed.

Example gate_match :
  get_api_key (Demo.settings_with (Some "secret") false) (Some "secret")
  = Returns (Some "secret").
Proof. reflexivity. Qed.

Example gate_missing_header :
  get_api_key (Demo.settings_with (Some "secret") false) None
  = Raises (HTTPException 403 "Could not validate credentials" None).
Proof. reflexivity. Qed.

Example detect_plain : PyJson.detect_encoding (list_byte_of_string "{}") = PyJson.utf_8.
Proof. reflexivity. Qed.

Example detect_utf16_bom :
  PyJson.detect_encoding [Byte.xff; Byte.xfe; Byte.x7b; Byte.x00] = PyJson.utf_16.
Proof. reflexivity. Qed.

Example detect_utf16_le :
  PyJson.detect_encoding [Byte.x7b; Byte.x00; Byte.x7d; Byte.x00] = PyJson.utf_16_le.
Proof. reflexivity. Qed.

Example utf8_two_byte_sequence : PyJson.utf8_decodes [Byte.xc3; Byte.xa9] = true.
Proof. reflexivity. Qed.

Example utf8_lone_continuation : PyJson.utf8_decodes [Byte.x80] = false.
Proof. reflexivity. Qed.

Example utf8_truncated_sequence : PyJson.utf8_decodes [Byte.xe2; Byte.x82] = false.
Proof. reflexivity. Qed.

Example loads_lone_continuation :
  PyJson.loads Demo.codec [Byte.x80] = Raises (UnicodeDecodeError "utf-8").
Proof. reflexivity. Qed.

Example first_call_on_fresh_client :
  fst (MCPClient.list_tools
         (Demo.env (Demo.ok_response (JDict [("result", JDict [("tools", JList [])])])))
         defaults (Demo.world0 defaults))
  = Returns (JList []).
Proof. reflexivity. Qed.

Example health_on_html_500 :
  fst (Main.health_check (Demo.env Demo.html_500) defaults (Demo.world0 defaults))
  = Returns (Main.degraded_payload "JSONDecodeError").
Proof. reflexivity. Qed.

(* --------------------------------------------------------------------- *)
(** *** The auth gate *)
(* --------------------------------------------------------------------- *)

(** C1.  The auth gate admits a request if and only if no API key is
    configured or the supplied [X-API-Key] value equals the configured
    secret.  An admitted request gets its header value back; a rejected one
    raises the 403 failure whose detail is exactly
    "Could not validate credentials", with no headers and nothing else. *)
Theorem get_api_key_admits_iff (settings : Settings) (api_key_header : option string) :
  (admits settings api_key_header
   <-> no_key_configured settings \/ api_key_header = bridge_api_key settings)
  /\ (get_api_key settings api_key_header = Returns api_key_header
      \/ get_api_key settings api_key_header
         = Raises (HTTPException 403 "Could not validate credentials" None)).
Proof.
  unfold admits, no_key_configured, get_api_key, HTTP_403_FORBIDDEN.
  destruct (opt_str_truthy (bridge_api_key settings)) eqn:Hconf; cbn.
  - destruct (opt_str_eqb api_key_header (bridge_api_key settings)) eqn:Heq.
    + apply opt_str_eqb_eq in Heq. split; [|now left].
      split; [now right | intros _; now eexists].
    + split; [|now right].
      split.
      * intros [v Hv]. discriminate.
      * intros [Hno | Heq']; [discriminate|].
        apply opt_str_eqb_eq in Heq'. congruence.
  - split; [|now left].
    split; [now left | intros _; now eexists].
Qed.

(* --------------------------------------------------------------------- *)
(** *** The upstream client: connection context *)
(* --------------------------------------------------------------------- *)

Section Client.
Variable E : Env.
Variable settings : Settings.

(** [connect] returns only with the client it built in place, and sends
    nothing. *)
Lemma connect_returns (w w1 : World) (u : unit) :
  MCPClient.connect E settings w = (Returns u, w1) ->
  AsyncClient_init E (client_args settings (mcp_client w)) = None
  /\ _http_client (mcp_client w1) = Some (client_args settings (mcp_client w))
  /\ exists evs, trace w1 = trace w ++ evs
                 /\ In (EvClientBuilt (client_args settings (mcp_client w))) evs
                 /\ posts evs = [] /\ bodies_read evs = [].
Proof.
  destruct w as [[su tok to hc] tr ck].
  unfold MCPClient.connect, MCPClient.AsyncClient, client_args. unfold_py. cbn.
  destruct (str_truthy tok); cbn;
    destruct (AsyncClient_init E _) eqn:Hinit; cbn; intros H; inversion H; subst; cbn;
    (split; [reflexivity|]); (split; [reflexivity|]);
    eexists; (split; [rewrite <- ?app_assoc; cbn; reflexivity|]); cbn; intuition.
Qed.

Lemma connect_succeeds (w : World) :
  AsyncClient_init E (client_args settings (mcp_client w)) = None ->
  exists w1, MCPClient.connect E settings w = (Returns tt, w1).
Proof.
  destruct w as [[su tok to hc] tr ck].
  unfold MCPClient.connect, MCPClient.AsyncClient, client_args. unfold_py. cbn.
  destruct (str_truthy tok); cbn; intros ->; cbn; eexists; reflexivity.
Qed.

Lemma connect_fails (w : World) (e : exn) :
  AsyncClient_init E (client_args settings (mcp_client w)) = Some e ->
  exists w1 evs, MCPClient.connect E settings w = (Raises e, w1)
                 /\ trace w1 = trace w ++ evs
                 /\ posts evs = [] /\ bodies_read evs = [].
Proof.
  destruct w as [[su tok to hc] tr ck].
  unfold MCPClient.connect, MCPClient.AsyncClient, client_args. unfold_py. cbn.
  destruct (str_truthy tok); cbn; intros ->; cbn; finish_run.
Qed.

(** [disconnect] leaves no connection context behind. *)
Lemma disconnect_clears (w : World) :
  exists w1, MCPClient.disconnect w = (Returns tt, w1)
             /\ _http_client (mcp_client w1) = None
             /\ server_url (mcp_client w1) = server_url (mcp_client w)
             /\ auth_token (mcp_client w1) = auth_token (mcp_client w)
             /\ timeout (mcp_client w1) = timeout (mcp_client w).
Proof.
  destruct w as [[su tok to [c|]] tr ck];
    unfold MCPClient.disconnect; unfold_py; cbn; eexists; repeat split.
Qed.

(** A call made without a connection context is [connect] followed by the
    same call. *)
Lemma send_request_connects (w : World) (m : string) (p : json) (i : Z) :
  _http_client (mcp_client w) = None ->
  MCPClient._send_request E settings m p i w =
  (MCPClient.connect E settings ;; MCPClient._send_request E settings m p i) w.
Proof.
  intros Hnone.
  unfold bind at 1.
  destruct (MCPClient.connect E settings w) as [[u|e] w1] eqn:Hc.
  - destruct (connect_returns _ _ _ Hc) as (_ & Hsome & _).
    unfold MCPClient._send_request at 1 2.
    unfold bind at 1. unfold get_self at 1. cbn. rewrite Hnone.
    unfold bind at 1. rewrite Hc.
    unfold bind at 5. unfold get_self at 2. cbn. rewrite Hsome.
    unfold bind at 5. unfold ret at 3. reflexivity.
  - unfold MCPClient._send_request.
    unfold bind at 1. unfold get_self at 1. cbn. rewrite Hnone.
    unfold bind at 1. rewrite Hc. reflexivity.
Qed.

Lemma send_request_connected (w : World) (c : Httpx.AsyncClient)
      (m : string) (p : json) (i : Z) :
  _http_client (mcp_client w) = Some c ->
  exists w' evs,
    MCPClient._send_request E settings m p i w = (exchange E settings c m p i, w')
    /\ mcp_client w' = mcp_client w
    /\ trace w' = trace w ++ evs
    /\ posts evs = [(c, "/", MCPClient.envelope m p i)]
    /\ bodies_read evs = [].
Proof.
  intros Hc.
  destruct w as [[su tok to hc] tr ck]. simpl in Hc. subst hc.
  unfold MCPClient._send_request, MCPClient.post, MCPClient.response_json,
    exchange, result_of_response.
  unfold_py. cbn.
  destruct (bridge_log_payloads settings); cbn;
    destruct (http_post E c "/" (MCPClient.envelope m p i)) as [r|e]; cbn;
    try finish_run.
  all: destruct (json_body r) as [j|]; cbn.
  all: destruct (Httpx.raise_for_status r); cbn; try finish_run.
  all: try (destruct (py_in "error" j) as [[|]|]; cbn;
            try destruct (py_getitem j "error"); cbn).
  all: finish_run.
Qed.

(** Every call, connected beforehand or not, goes out through
    [client_for] once, and reports the outcome of that exchange. *)
Lemma send_request_run (w : World) (c : Httpx.AsyncClient)
      (m : string) (p : json) (i : Z) :
  client_for E settings w = Returns c ->
  exists w' evs,
    MCPClient._send_request E settings m p i w = (exchange E settings c m p i, w')
    /\ _http_client (mcp_client w') = Some c
    /\ trace w' = trace w ++ evs
    /\ posts evs = [(c, "/", MCPClient.envelope m p i)]
    /\ bodies_read evs = [].
Proof.
  unfold client_for. intros Hfor.
  destruct (_http_client (mcp_client w)) as [c0|] eqn:Hhc.
  - inversion Hfor; subst c0.
    destruct (send_request_connected w c m p i Hhc) as (w' & evs & Hrun & Hmc & Htr & Hp & Hb).
    exists w', evs. rewrite Hmc. auto.
  - destruct (AsyncClient_init E _) eqn:Hinit; [discriminate|]. inversion Hfor; subst c.
    rewrite send_request_connects by assumption.
    destruct (connect_succeeds w Hinit) as (w1 & Hconn).
    destruct (connect_returns _ _ _ Hconn) as (_ & Hsome & cevs & Htr1 & _ & Hp1 & Hb1).
    destruct (send_request_connected w1 _ m p i Hsome) as (w' & evs & Hrun & Hmc & Htr & Hp & Hb).
    exists w', (cevs ++ evs).
    unfold bind. rewrite Hconn, Hrun, Hmc, Htr, Htr1, posts_app, bodies_read_app, Hp1, Hb1, Hp, Hb.
    rewrite <- app_assoc. auto.
Qed.

(** When the client cannot be built the call fails with the constructor's
    exception, and nothing is sent. *)
Lemma send_request_no_client (w : World) (e : exn) (m : string) (p : json) (i : Z) :
  client_for E settings w = Raises e ->
  exists w' evs,
    MCPClient._send_request E settings m p i w = (Raises e, w')
    /\ trace w' = trace w ++ evs
    /\ posts evs = [] /\ bodies_read evs = [].
Proof.
  unfold client_for. intros Hfor.
  destruct (_http_client (mcp_client w)) as [c0|] eqn:Hhc; [discriminate|].
  destruct (AsyncClient_init E _) eqn:Hinit; [|discriminate]. inversion Hfor; subst.
  rewrite send_request_connects by assumption.
  destruct (connect_fails w e Hinit) as (w1 & evs & Hconn & Htr & Hp & Hb).
  exists w1, evs. unfold bind. rewrite Hconn. auto.
Qed.

(** C9.  A call made when no connection context exists behaves exactly as
    [connect()] followed by the call; when the context can be built, it is
    built before the request goes out, the request is sent through it, the
    context stays in place, and the call reports what the same exchange
    reports on a client connected beforehand.  [disconnect()] only puts the
    client back in that state. *)
Theorem send_request_establishes_context
        (w : World) (m : string) (p : json) (i : Z) :
  _http_client (mcp_client w) = None ->
  let c := client_args settings (mcp_client w) in
  MCPClient._send_request E settings m p i w
  = (MCPClient.connect E settings ;; MCPClient._send_request E settings m p i) w
  /\ (AsyncClient_init E c = None ->
      exists w' built sent,
        MCPClient._send_request E settings m p i w = (exchange E settings c m p i, w')
        /\ _http_client (mcp_client w') = Some c
        /\ trace w' = trace w ++ built ++ sent
        /\ In (EvClientBuilt c) built /\ posts built = []
        /\ posts sent = [(c, "/", MCPClient.envelope m p i)])
  /\ (forall w0, exists w1,
        MCPClient.disconnect w0 = (Returns tt, w1)
        /\ _http_client (mcp_client w1) = None).
Proof.
  intros Hnone c. split; [apply send_request_connects; assumption|]. split.
  - intros Hinit.
    destruct (connect_succeeds w Hinit) as (w1 & Hconn).
    destruct (connect_returns _ _ _ Hconn) as (_ & Hsome & cevs & Htr1 & Hin & Hp1 & _).
    destruct (send_request_connected w1 _ m p i Hsome) as (w' & evs & Hrun & Hmc & Htr & Hp & _).
    exists w', cevs, evs.
    rewrite send_request_connects by assumption.
    unfold bind. rewrite Hconn, Hrun, Hmc, Htr, Htr1, <- app_assoc. auto 10.
  - intros w0. destruct (disconnect_clears w0) as (w1 & H1 & H2 & _). eauto.
Qed.

End Client.

(** C9, run: a first call on a fresh client object, never connected. *)
Lemma send_request_establishes_context_witness :
  let E0 := Demo.env (Demo.ok_response (JDict [("result", JDict [])])) in
  let w := Demo.world0 defaults in
  let c := client_args defaults (mcp_client w) in
  _http_client (mcp_client w) = None
  /\ AsyncClient_init E0 c = None
  /\ MCPClient._send_request E0 defaults "tools/list" (JDict []) 1 w
     = (MCPClient.connect E0 defaults ;;
        MCPClient._send_request E0 defaults "tools/list" (JDict []) 1) w
  /\ exists w' built sent,
      MCPClient._send_request E0 defaults "tools/list" (JDict []) 1 w
      = (exchange E0 defaults c "tools/list" (JDict []) 1, w')
      /\ _http_client (mcp_client w') = Some c
      /\ trace w' = trace w ++ built ++ sent
      /\ In (EvClientBuilt c) built /\ posts built = []
      /\ posts sent = [(c, "/", MCPClient.envelope "tools/list" (JDict []) 1)].
Proof.
  cbv zeta.
  pose proof (send_request_establishes_context
                (Demo.env (Demo.ok_response (JDict [("result", JDict [])])))
                defaults (Demo.world0 defaults) "tools/list" (JDict []) 1 eq_refl) as H.
  cbv zeta in H. destruct H as (Hsame & Hbuilt & _).
  split; [reflexivity|]. split; [reflexivity|].
  split; [exact Hsame | exact (Hbuilt eq_refl)].
Defined.

(* --------------------------------------------------------------------- *)
(** *** The upstream client: what a call reports *)
(* --------------------------------------------------------------------- *)

Lemma failure_status_not_success (r : Response) :
  is_failure_status (status_code r) = true -> Httpx.is_success r = false.
Proof.
  unfold is_failure_status, Httpx.is_success. intros H.
  apply andb_true_iff in H. destruct H as [H1 H2].
  apply Z.leb_le in H1. apply andb_false_iff. right. apply Z.leb_gt. lia.
Qed.

Section Calls.
Variable E : Env.
Variable settings : Settings.

(** The client's [call_tool] adds logging only. *)
Lemma call_tool_run (w : World) (c : Httpx.AsyncClient)
      (tool_name : string) (arguments : json) :
  client_for E settings w = Returns c ->
  let params := JDict [("name", JStr tool_name); ("arguments", arguments)] in
  exists w' evs,
    MCPClient.call_tool E settings tool_name arguments w
    = (exchange E settings c "tools/call" params 2, w')
    /\ trace w' = trace w ++ evs
    /\ posts evs = [(c, "/", MCPClient.envelope "tools/call" params 2)]
    /\ bodies_read evs = [].
Proof.
  intros Hfor params. subst params.
  destruct w as [mc tr ck].
  unfold MCPClient.call_tool.
  unfold try_except, bind at 1, logger_info at 1, emit at 1. cbv beta iota.
  match goal with |- context [MCPClient._send_request _ _ _ ?pp _ ?w2] =>
    destruct (send_request_run E settings w2 c "tools/call" pp 2 Hfor)
      as (w' & evs & Hrun & _ & Htr & Hp & Hb)
  end.
  rewrite Hrun.
  destruct (exchange E settings c "tools/call" _ 2) as [j|e].
  - exists w', (EvLog INFO "Calling tool '{tool_name}' with arguments: {arguments}"
                      [AStr tool_name; AJson arguments] :: evs).
    rewrite Htr. cbn. rewrite <- app_assoc. cbn. auto.
  - unfold_py. cbn. do 2 eexists. split; [reflexivity|]. cbn. rewrite Htr. cbn.
    split; [rewrite <- !app_assoc; cbn; reflexivity|].
    cbn. rewrite !posts_app, !bodies_read_app, Hp, Hb. cbn. auto.
Qed.

(** The client's [read_resource] adds logging only. *)
Lemma client_read_resource_run (w : World) (c : Httpx.AsyncClient) (uri : string) :
  client_for E settings w = Returns c ->
  exists w' evs,
    MCPClient.read_resource E settings uri w
    = (exchange E settings c "resources/read" (JDict [("uri", JStr uri)]) 4, w')
    /\ trace w' = trace w ++ evs
    /\ posts evs = [(c, "/", MCPClient.envelope "resources/read" (JDict [("uri", JStr uri)]) 4)]
    /\ bodies_read evs = [].
Proof.
  intros Hfor.
  destruct w as [mc tr ck].
  unfold MCPClient.read_resource.
  unfold try_except, bind at 1, logger_info at 1, emit at 1. cbv beta iota.
  match goal with |- context [MCPClient._send_request _ _ _ ?pp _ ?w2] =>
    destruct (send_request_run E settings w2 c "resources/read" pp 4 Hfor)
      as (w' & evs & Hrun & _ & Htr & Hp & Hb)
  end.
  rewrite Hrun.
  destruct (exchange E settings c "resources/read" _ 4) as [j|e].
  - exists w', (EvLog INFO "Reading resource: {uri}" [AStr uri] :: evs).
    rewrite Htr. cbn. rewrite <- app_assoc. cbn. auto.
  - unfold_py. cbn. do 2 eexists. split; [reflexivity|]. cbn. rewrite Htr. cbn.
    split; [rewrite <- !app_assoc; cbn; reflexivity|].
    cbn. rewrite !posts_app, !bodies_read_app, Hp, Hb. cbn. auto.
Qed.

(** The tool-execution route: one upstream call, whose result is shaped
    into the response model, any failure becoming a 502. *)
Lemma execute_tool_run (coerce_bool : json -> option bool) (w : World) (c : Httpx.AsyncClient)
      (tool_name : string) (request : Tools.ToolExecutionRequest) :
  client_for E settings w = Returns c ->
  let params := JDict [("name", JStr tool_name);
                       ("arguments", JDict (Tools.arguments request))] in
  exists w' evs,
    Tools.execute_tool E settings coerce_bool tool_name request w
    = (bad_gateway E "Failed to execute tool on MCP server: "
         (and_then (exchange E settings c "tools/call" params 2)
                   (shape_tool_result coerce_bool)), w')
    /\ trace w' = trace w ++ evs
    /\ posts evs = [(c, "/", MCPClient.envelope "tools/call" params 2)]
    /\ bodies_read evs = [].
Proof.
  intros Hfor params. subst params.
  destruct w as [mc tr ck].
  unfold Tools.execute_tool.
  unfold try_except, bind at 1, logger_info at 1, emit at 1. cbv beta iota.
  unfold bind at 1.
  match goal with |- context [MCPClient.call_tool _ _ ?tn ?args ?w2] =>
    destruct (call_tool_run w2 c tn args Hfor) as (w' & evs & Hrun & Htr & Hp & Hb)
  end.
  rewrite Hrun. unfold and_then, shape_tool_result, bad_gateway.
  destruct (exchange E settings c "tools/call" _ 2) as [res|e]; unfold_py; cbn.
  - destruct (py_get res "content" (JList [])) as [content|e1]; cbn;
      [destruct (py_get res "isError" (JBool false)) as [is_error|e2]; cbn;
       [destruct (Tools.ToolExecutionResponse_new coerce_bool content is_error); cbn| ] | ].
    all: do 2 eexists; (split; [reflexivity|]); cbn; rewrite Htr; cbn;
      (split; [rewrite <- !app_assoc; cbn; reflexivity|]);
      cbn; rewrite ?posts_app, ?bodies_read_app, Hp, Hb; cbn; auto.
  - do 2 eexists; (split; [reflexivity|]); cbn; rewrite Htr; cbn;
      (split; [rewrite <- !app_assoc; cbn; reflexivity|]);
      cbn; rewrite ?posts_app, ?bodies_read_app, Hp, Hb; cbn; auto.
Qed.

(** The resource-read route, likewise. *)
Lemma read_resource_run (w : World) (c : Httpx.AsyncClient) (uri : string) :
  client_for E settings w = Returns c ->
  exists w' evs,
    Resources.read_resource E settings uri w
    = (bad_gateway E "Failed to read resource from MCP server: "
         (and_then (exchange E settings c "resources/read" (JDict [("uri", JStr uri)]) 4)
                   shape_read_result), w')
    /\ trace w' = trace w ++ evs
    /\ posts evs = [(c, "/", MCPClient.envelope "resources/read" (JDict [("uri", JStr uri)]) 4)]
    /\ bodies_read evs = [].
Proof.
  intros Hfor.
  destruct w as [mc tr ck].
  unfold Resources.read_resource.
  unfold try_except, bind at 1, logger_info at 1, emit at 1. cbv beta iota.
  unfold bind at 1.
  match goal with |- context [MCPClient.read_resource _ _ ?u ?w2] =>
    destruct (client_read_resource_run w2 c u Hfor) as (w' & evs & Hrun & Htr & Hp & Hb)
  end.
  rewrite Hrun. unfold and_then, shape_read_result, bad_gateway.
  destruct (exchange E settings c "resources/read" _ 4) as [res|e]; unfold_py; cbn.
  - destruct (py_get res "contents" (JList [])) as [contents|e1]; cbn;
      [destruct (Resources.ResourceReadResponse_new contents); cbn| ].
    all: do 2 eexists; (split; [reflexivity|]); cbn; rewrite Htr; cbn;
      (split; [rewrite <- !app_assoc; cbn; reflexivity|]);
      cbn; rewrite ?posts_app, ?bodies_read_app, Hp, Hb; cbn; auto.
  - do 2 eexists; (split; [reflexivity|]); cbn; rewrite Htr; cbn;
      (split; [rewrite <- !app_assoc; cbn; reflexivity|]);
      cbn; rewrite ?posts_app, ?bodies_read_app, Hp, Hb; cbn; auto.
Qed.
End Calls.

(* --------------------------------------------------------------------- *)
(** *** Upstream errors *)
(* --------------------------------------------------------------------- *)




(** C3.  What a response whose body is not JSON leads to depends on the
    audit toggle.  With auditing on, the error result
    [{"error": "Non-JSON response from Splunk", "raw": <text>}] is
    synthesized, so after the status check the call raises the protocol
    failure built from its "error" entry.  With auditing off nothing is
    synthesized: [response.json()] raises and the call fails with that
    decoding error at once. *)
Theorem non_json_response_outcome (E : Env) (settings : Settings)
        (w : World) (c : Httpx.AsyncClient) (m : string) (p : json) (i : Z) (r : Response) :
  client_for E settings w = Returns c ->
  http_post E c "/" (MCPClient.envelope m p i) = Returns r ->
  json_body r = None ->
  fst (MCPClient._send_request E settings m p i w)
  = if bridge_log_payloads settings
    then and_then (Httpx.raise_for_status r)
                  (fun _ => Raises (protocol_failure E (JStr "Non-JSON response from Splunk")))
    else Raises (JSONDecodeError (text r)).
Proof.
  intros Hfor Hup Hj.
  destruct (send_request_run E settings w c m p i Hfor) as (w' & evs & Hrun & _).
  rewrite Hrun. cbn. unfold exchange, result_of_response. rewrite Hup, Hj.
  destruct (bridge_log_payloads settings); [|reflexivity].
  destruct (Httpx.raise_for_status r); reflexivity.
Qed.

(** C3, run: auditing off, HTTP 200 with an HTML body; the call fails with
    the decoding error and no error result is synthesized. *)
Lemma non_json_response_outcome_witness :
  fst (MCPClient._send_request (Demo.env Demo.html_200) (Demo.settings_with None false)
                               "tools/list" (JDict []) 1
                               (Demo.world0 (Demo.settings_with None false)))
  = Raises (JSONDecodeError "<html>It works</html>").
Proof.
  apply (non_json_response_outcome
           (Demo.env Demo.html_200) (Demo.settings_with None false)
           (Demo.world0 (Demo.settings_with None false))
           (client_args (Demo.settings_with None false)
                        (mcp_client (Demo.world0 (Demo.settings_with None false))))
           "tools/list" (JDict []) 1 Demo.html_200);
    reflexivity.
Defined.

(** C4.  For a response with a 4xx/5xx status the status check comes after
    the parse: when the body parses, or auditing is on, the call raises the
    transport failure holding the response (status and body); when the body
    does not parse and auditing is off, the parse raises first and the
    status check is never reached. *)
Theorem failure_status_outcome (E : Env) (settings : Settings)
        (w : World) (c : Httpx.AsyncClient) (m : string) (p : json) (i : Z) (r : Response) :
  client_for E settings w = Returns c ->
  http_post E c "/" (MCPClient.envelope m p i) = Returns r ->
  is_failure_status (status_code r) = true ->
  fst (MCPClient._send_request E settings m p i w)
  = Raises (match json_body r with
            | Some _ => HTTPStatusError r
            | None => if bridge_log_payloads settings
                      then HTTPStatusError r
                      else JSONDecodeError (text r)
            end).
Proof.
  intros Hfor Hup Hst.
  destruct (send_request_run E settings w c m p i Hfor) as (w' & evs & Hrun & _).
  rewrite Hrun. cbn. unfold exchange, result_of_response, Httpx.raise_for_status.
  rewrite Hup, (failure_status_not_success r Hst).
  destruct (json_body r); [reflexivity|].
  destruct (bridge_log_payloads settings); reflexivity.
Qed.

(** C4, run: auditing off, HTTP 500 with an HTML body; the failure raised
    is the decoding error, which holds no status. *)
Lemma failure_status_outcome_witness :
  fst (MCPClient._send_request (Demo.env Demo.html_500) (Demo.settings_with None false)
                               "tools/list" (JDict []) 1
                               (Demo.world0 (Demo.settings_with None false)))
  = Raises (JSONDecodeError "<html>Internal Server Error</html>").
Proof.
  apply (failure_status_outcome
           (Demo.env Demo.html_500) (Demo.settings_with None false)
           (Demo.world0 (Demo.settings_with None false))
           (client_args (Demo.settings_with None false)
                        (mcp_client (Demo.world0 (Demo.settings_with None false))))
           "tools/list" (JDict []) 1 Demo.html_500);
    reflexivity.
Defined.

(* --------------------------------------------------------------------- *)
(** *** Sparse successes and the forwarded envelope *)
(* --------------------------------------------------------------------- *)







(** The same run, as the caller sees it: a 502 that carries the encoder's
    message, and nothing sent. *)
Example non_finite_argument_run :
  let E0 := Demo.httpx_env (Demo.ok_response (JDict [("result", JDict [])])) in
  let run := Tools.execute_tool E0 defaults (fun _ => None) "search"
               {| Tools.arguments := [("x", JFloat "inf")] |} (Demo.world0 defaults) in
  fst run
  = Raises (HTTPException 502
              "Failed to execute tool on MCP server: Out of range float values are not JSON compliant"
              None)
  /\ requests_sent (trace (snd run)) = [].
Proof. split; vm_compute; reflexivity. Qed.

(* --------------------------------------------------------------------- *)
(** *** The health endpoint *)
(* --------------------------------------------------------------------- *)


(* --------------------------------------------------------------------- *)
(** *** The audit interceptor *)
(* --------------------------------------------------------------------- *)

Section Interceptor.
Variable E : Env.
Variable C : PyJson.Codec.
Variable settings : Settings.


(** With auditing on: the interceptor reads the body and parses it for the
    log; unless that raises, [call_next] runs on the replayed request, and
    its response is drained and parsed for the log; unless that raises, the
    rebuilt response is returned. *)
Lemma dispatch_enabled (request : Starlette.Request)
      (call_next : Starlette.Request -> M Starlette.Response) (w : World) :
  bridge_log_payloads settings = true ->
  let body := Starlette.observed_body request in
  match body_log C body with
  | Raises e =>
      Logging.dispatch E C settings request call_next w
      = (Raises e, {| mcp_client := mcp_client w;
                      trace := trace w ++ [EvRequestBodyRead body];
                      clock := S (clock w) |})
  | Returns _ =>
      exists w2 evs,
        mcp_client w2 = mcp_client w
        /\ trace w2 = trace w ++ evs
        /\ posts evs = [] /\ bodies_read evs = [body]
        /\ match call_next (replayed request) w2 with
           | (Raises e, w3) =>
               Logging.dispatch E C settings request call_next w = (Raises e, w3)
           | (Returns response, w3) =>
               exists w4 evs',
                 Logging.dispatch E C settings request call_next w
                 = (match response_log E C (Starlette.sent_body response) with
                    | Raises e => Raises e
                    | Returns _ => Returns (rebuilt response)
                    end, w4)
                 /\ mcp_client w4 = mcp_client w3
                 /\ trace w4 = trace w3 ++ evs'
                 /\ posts evs' = [] /\ bodies_read evs' = []
           end
  end.
Proof.
  intros Hon body. subst body.
  destruct w as [mc tr ck].
  unfold Logging.dispatch, Logging.loads_or_empty, try_except_JSONDecodeError,
    Starlette.body, Starlette.set_receive, time_now, body_log, replayed.
  rewrite Hon. unfold_py. cbn.
  set (body := Starlette.observed_body request).
  destruct (bytes_truthy body) eqn:Hb; cbn;
    [destruct (PyJson.loads C body) as [j|e]; cbn;
     [|destruct (is_JSONDecodeError e); cbn; [|reflexivity]] | ];
    (match goal with |- context [call_next _ ?W] => exists W end);
    eexists; (split; [reflexivity|]);
    (split; [cbn; rewrite <- ?app_assoc; cbn; reflexivity|]);
    (split; [reflexivity|]); (split; [reflexivity|]);
    (match goal with |- context [call_next ?rq ?w2] =>
       destruct (call_next rq w2) as [[response|e'] w3]; [|reflexivity] end);
    unfold response_log, Starlette.sent_body, rebuilt, Logging.iterate_in_chunks; cbn;
    destruct w3 as [mc3 tr3 ck3]; cbn;
    (destruct (bytes_truthy (concat (Starlette.body_iterator response))); cbn;
     [destruct (PyJson.loads C (concat (Starlette.body_iterator response))) as [[]|e2]; cbn;
      try (destruct (is_JSONDecodeError e2); cbn) | ]);
    do 2 eexists; (split; [reflexivity|]); (split; [reflexivity|]);
    (split; [cbn; rewrite <- ?app_assoc; cbn; reflexivity|]); split; reflexivity.
Qed.
End Interceptor.

(** What the interceptor hands downstream when auditing is on: a request
    with the same method, path, headers and body, whose channel gives the
    body again on every read and never [http.disconnect]. *)
Lemma replayed_request (request : Starlette.Request) :
  Starlette.method (replayed request) = Starlette.method request
  /\ Starlette.path (replayed request) = Starlette.path request
  /\ Starlette.headers (replayed request) = Starlette.headers request
  /\ Starlette.observed_body (replayed request) = Starlette.observed_body request
  /\ Starlette.disconnects (replayed request) = false
  /\ Starlette.drained (Starlette._receive (replayed request))
     = Starlette._receive (replayed request).
Proof. repeat split. Qed.

Lemma sent_body_rebuilt (response : Starlette.Response) :
  Starlette.sent_body (rebuilt response) = Starlette.sent_body response.
Proof. unfold Starlette.sent_body, rebuilt. cbn. apply app_nil_r. Qed.

(** With auditing on and an inbound body the log parse accepts: the whole
    run, effects included. *)
Lemma dispatch_enabled_exact (E : Env) (C : PyJson.Codec) (settings : Settings)
      (request : Starlette.Request)
      (call_next : Starlette.Request -> M Starlette.Response) (w : World) (pl : logarg) :
  bridge_log_payloads settings = true ->
  body_log C (Starlette.observed_body request) = Returns pl ->
  Logging.dispatch E C settings request call_next w
  = match call_next (replayed request) (handler_world E w request pl) with
    | (Raises e, w3) => (Raises e, w3)
    | (Returns response, w3) =>
        (match response_log E C (Starlette.sent_body response) with
         | Raises e => Raises e
         | Returns _ => Returns (rebuilt response)
         end,
         {| mcp_client := mcp_client w3;
            trace := trace w3
                     ++ EvResponseBodyDrained (Starlette.sent_body response)
                        :: match response_log E C (Starlette.sent_body response) with
                           | Raises _ => []
                           | Returns rl =>
                               [outgoing_line (time_time E (clock w)) request
                                  (Starlette.status_code response)
                                  (time_time E (clock w3) - time_time E (S (clock w)))
                                  rl]
                           end;
            clock := S (clock w3) |})
    end.
Proof.
  intros Hon Hlog.
  destruct w as [mc tr ck].
  unfold Logging.dispatch, Logging.loads_or_empty, try_except_JSONDecodeError,
    Starlette.body, Starlette.set_receive, time_now, body_log, replayed, handler_world,
    incoming_line, outgoing_line in *.
  rewrite Hon. unfold_py. cbn.
  set (body := Starlette.observed_body request) in *.
  destruct (bytes_truthy body) eqn:Hb; cbn;
    [destruct (PyJson.loads C body) as [j|e]; cbn;
     [|destruct (is_JSONDecodeError e); cbn; [|discriminate Hlog]] | ];
    inversion Hlog; subst pl; rewrite <- ?app_assoc; cbn;
    (match goal with |- context [call_next ?rq ?w2] =>
       destruct (call_next rq w2) as [[response|e'] w3]; [|reflexivity] end);
    unfold response_log, Starlette.sent_body, rebuilt, Logging.iterate_in_chunks; cbn;
    destruct w3 as [mc3 tr3 ck3]; cbn;
    (destruct (bytes_truthy (concat (Starlette.body_iterator response))); cbn;
     [destruct (PyJson.loads C (concat (Starlette.body_iterator response))) as [[]|e2]; cbn;
      try (destruct (is_JSONDecodeError e2); cbn) | ]);
    rewrite <- ?app_assoc; reflexivity.
Qed.

Lemma undecodable_body_log (C : PyJson.Codec) (body : bytes) :
  PyJson.detect_encoding body = PyJson.utf_8 ->
  PyJson.utf8_decodes body = false ->
  body_log C body = Raises (UnicodeDecodeError "utf-8").
Proof.
  intros Henc Hdec. unfold body_log.
  destruct body as [|b0 rest]; [discriminate Hdec|].
  unfold bytes_truthy, PyJson.loads, PyJson.decode. rewrite Henc, Hdec. reflexivity.
Qed.

(** X28.  The same on the way back: a response body that does not decode as
    UTF-8 makes [dispatch] raise after the handler has run, so that the
    handler's response does not reach the caller. *)
Lemma dispatch_undecodable_response_raises (E : Env) (C : PyJson.Codec) (settings : Settings)
      (request : Starlette.Request)
      (call_next : Starlette.Request -> M Starlette.Response) (w : World) (pl : logarg) :
  bridge_log_payloads settings = true ->
  body_log C (Starlette.observed_body request) = Returns pl ->
  exists w2,
    mcp_client w2 = mcp_client w
    /\ forall response w3,
        call_next (replayed request) w2 = (Returns response, w3) ->
        PyJson.detect_encoding (Starlette.sent_body response) = PyJson.utf_8 ->
        PyJson.utf8_decodes (Starlette.sent_body response) = false ->
        fst (Logging.dispatch E C settings request call_next w)
        = Raises (UnicodeDecodeError "utf-8").
Proof.
  intros Hon Hlog.
  pose proof (dispatch_enabled E C settings request call_next w Hon) as H.
  cbv zeta in H. rewrite Hlog in H.
  destruct H as (w2 & evs & Hmc & _ & _ & _ & H).
  exists w2. split; [exact Hmc|].
  intros response w3 Hcall Henc Hdec. rewrite Hcall in H.
  destruct H as (w4 & evs' & Hrun & _). rewrite Hrun. cbn [fst].
  unfold response_log.
  destruct (Starlette.sent_body response) as [|b0 rest] eqn:Hbody; [discriminate Hdec|].
  unfold bytes_truthy, PyJson.loads, PyJson.decode. rewrite Henc, Hdec. reflexivity.
Qed.

(** C5.  With auditing on, an inbound body that does not decode as UTF-8
    makes the interceptor's own parse raise a [UnicodeDecodeError], which
    its [except json.JSONDecodeError] clause does not catch: [dispatch]
    raises after reading the body, and [call_next] never runs. *)
Theorem dispatch_undecodable_body_raises (E : Env) (C : PyJson.Codec) (settings : Settings)
        (request : Starlette.Request)
        (call_next : Starlette.Request -> M Starlette.Response) (w : World) :
  bridge_log_payloads settings = true ->
  PyJson.detect_encoding (Starlette.observed_body request) = PyJson.utf_8 ->
  PyJson.utf8_decodes (Starlette.observed_body request) = false ->
  Logging.dispatch E C settings request call_next w
  = (Raises (UnicodeDecodeError "utf-8"),
     {| mcp_client := mcp_client w;
        trace := trace w ++ [EvRequestBodyRead (Starlette.observed_body request)];
        clock := S (clock w) |}).
Proof.
  intros Hon Henc Hdec.
  pose proof (dispatch_enabled E C settings request call_next w Hon) as H.
  cbv zeta in H. rewrite (undecodable_body_log C _ Henc Hdec) in H. exact H.
Qed.

(** C5, run: auditing on, the one-byte body 0x80, and a handler that would
    answer 200. *)
Lemma dispatch_undecodable_body_raises_witness :
  let request := {| Starlette.method := "POST";
                    Starlette.path := "/api/tools/search";
                    Starlette.headers := [];
                    Starlette._receive := Starlette.Stream [[Byte.x80]] |} in
  let handler := fun _ : Starlette.Request =>
                   ret {| Starlette.status_code := 200;
                          Starlette.response_headers := [];
                          Starlette.body_iterator := [] |} in
  let settings := Demo.settings_with None true in
  fst (Logging.dispatch (Demo.env Demo.html_200) Demo.codec settings request handler
                        (Demo.world0 settings))
  = Raises (UnicodeDecodeError "utf-8").
Proof.
  cbv zeta.
  rewrite (dispatch_undecodable_body_raises
             (Demo.env Demo.html_200) Demo.codec (Demo.settings_with None true)
             {| Starlette.method := "POST";
                Starlette.path := "/api/tools/search";
                Starlette.headers := [];
                Starlette._receive := Starlette.Stream [[Byte.x80]] |}
             (fun _ => ret {| Starlette.status_code := 200;
                              Starlette.response_headers := [];
                              Starlette.body_iterator := [] |})
             (Demo.world0 (Demo.settings_with None true))
             eq_refl eq_refl eq_refl).
  reflexivity.
Defined.

(* --------------------------------------------------------------------- *)
(** *** The gate and the interceptor together *)
(* --------------------------------------------------------------------- *)



Section Gate.
Variable E : Env.
Variable C : PyJson.Codec.
Variable settings : Settings.
Variable http_exception_handler : exn -> Starlette.Response.
Variable validation_exception_handler : exn -> Starlette.Response.
Variable general_exception_handler : exn -> Starlette.Response.
Variable F : Main.Framework.



End Gate.



(** A wrong key with a body that is not JSON, on the route that takes a
    body: the framework has read the body and answers with the validation
    error; the gate is never consulted. *)
Example wrong_key_malformed_body :
  let settings := Demo.settings_with (Some "secret") false in
  let request := {| Starlette.method := "POST";
                    Starlette.path := "/api/tools/search";
                    Starlette.headers := [("x-api-key", "wrong")];
                    Starlette._receive := Starlette.Stream [list_byte_of_string "{"] |} in
  Main.app (Demo.env Demo.html_200) Demo.codec settings
           Demo.http_exception_handler Demo.validation_exception_handler
           Demo.general_exception_handler Demo.framework
           true request (fun _ _ => raise (Exception_ "endpoint")) (Demo.world0 settings)
  = (Returns (Demo.validation_exception_handler (Main.RequestValidationError "{")),
     {| mcp_client := MCPClient.__init__ settings;
        trace := [EvRouteBodyRead (list_byte_of_string "{")];
        clock := 0 |}).
Proof. reflexivity. Qed.

(** A wrong key with a body that is not UTF-8, auditing on: the
    interceptor's own parse raises, and the caller gets the answer to an
    internal error instead of the 403. *)
Example wrong_key_undecodable_body :
  let settings := Demo.settings_with (Some "secret") true in
  let request := {| Starlette.method := "POST";
                    Starlette.path := "/api/tools/search";
                    Starlette.headers := [("x-api-key", "wrong")];
                    Starlette._receive := Starlette.Stream [[Byte.x80]] |} in
  fst (Main.app (Demo.env Demo.html_200) Demo.codec settings
                Demo.http_exception_handler Demo.validation_exception_handler
                Demo.general_exception_handler Demo.framework
                true request (fun _ _ => raise (Exception_ "endpoint")) (Demo.world0 settings))
  = Returns (Demo.general_exception_handler (UnicodeDecodeError "utf-8")).
Proof. reflexivity. Qed.

(** A preflight is answered by the CORS layer: the gate is not consulted. *)
Example preflight_skips_gate :
  let settings := Demo.settings_with (Some "secret") false in
  let request := {| Starlette.method := "OPTIONS";
                    Starlette.path := "/api/tools";
                    Starlette.headers := [("origin", "https://example.org");
                                          ("access-control-request-method", "GET")];
                    Starlette._receive := Starlette.Stream [] |} in
  fst (Main.app (Demo.env Demo.html_200) Demo.codec settings
                Demo.http_exception_handler Demo.validation_exception_handler
                Demo.general_exception_handler Demo.framework
                false request (fun _ _ => raise (Exception_ "endpoint")) (Demo.world0 settings))
  = Returns (Main.preflight_response Demo.framework ["*"]
               [("origin", "https://example.org"); ("access-control-request-method", "GET")]).
Proof. reflexivity. Qed.

(* ===================================================================== *)
(** ** Further properties *)
(* ===================================================================== *)

Lemma closes_app (a b : list event) : closes (a ++ b) = closes a ++ closes b.
Proof.
  induction a as [|ev a IH]; simpl; [reflexivity|].
  destruct ev; simpl; rewrite ?IH; reflexivity.
Qed.

Lemma builds_app (a b : list event) : builds (a ++ b) = builds a ++ builds b.
Proof.
  induction a as [|ev a IH]; simpl; [reflexivity|].
  destruct ev; simpl; rewrite ?IH; reflexivity.
Qed.

Lemma logged_app (a b : list event) : logged (a ++ b) = logged a ++ logged b.
Proof.
  induction a as [|ev a IH]; simpl; [reflexivity|].
  destruct ev; simpl; rewrite ?IH; reflexivity.
Qed.

Ltac trace_simpl :=
  cbn; rewrite ?posts_app, ?closes_app, ?builds_app, ?logged_app, ?bodies_read_app;
  cbn; rewrite ?app_nil_r.

(* --------------------------------------------------------------------- *)
(** *** The connection context *)
(* --------------------------------------------------------------------- *)

(** X1.  When [connect] returns, the client in place is the one built from
    the client object's server URL and timeout and the TLS setting, with an
    [Authorization: Bearer] header exactly when a token is set.  This holds
    whatever was in place before: a previous client is replaced, not
    closed.  Nothing is sent to the upstream, and the other attributes of
    the client object are kept. *)
Theorem connect_installs_client (E : Env) (settings : Settings) (w w1 : World) (u : unit) :
  MCPClient.connect E settings w = (Returns u, w1) ->
  let self := mcp_client w in
  let built :=
    {| Httpx.base_url := server_url self;
       Httpx.timeout := timeout self;
       Httpx.headers :=
         if str_truthy (auth_token self)
         then [("Authorization", String.append "Bearer " (auth_token self))]
         else [];
       Httpx.verify := splunk_mcp_server_verify_ssl settings |} in
  mcp_client w1
  = {| server_url := server_url self; auth_token := auth_token self;
       timeout := timeout self; _http_client := Some built |}
  /\ builds (trace w1) = builds (trace w) ++ [built]
  /\ closes (trace w1) = closes (trace w)
  /\ posts (trace w1) = posts (trace w).
Proof.
  destruct w as [[su tok to hc] tr ck].
  unfold MCPClient.connect, MCPClient.AsyncClient. unfold_py. cbn.
  destruct (str_truthy tok); cbn;
    destruct (AsyncClient_init E _); cbn; intros H; inversion H; subst;
    trace_simpl; auto.
Qed.

(** X1, run: connecting a fresh client object that holds a token. *)
Lemma connect_installs_client_witness :
  let settings :=
    {| bridge_host := "0.0.0.0"; bridge_port := 8000;
       splunk_mcp_server_url := "https://splunk:8089/mcp";
       splunk_mcp_auth_token := "t0ken";
       splunk_mcp_server_timeout := 30;
       splunk_mcp_server_verify_ssl := false;
       bridge_api_key := None; log_level := "INFO";
       bridge_log_payloads := false; cors_origins := "*" |} in
  let E0 := Demo.env Demo.html_200 in
  _http_client (mcp_client (snd (MCPClient.connect E0 settings (Demo.world0 settings))))
  = Some {| Httpx.base_url := "https://splunk:8089/mcp";
            Httpx.timeout := 30;
            Httpx.headers := [("Authorization", "Bearer t0ken")];
            Httpx.verify := false |}.
Proof.
  cbv zeta.
  match goal with |- context [MCPClient.connect ?E ?s ?w] =>
    destruct (connect_installs_client E s w (snd (MCPClient.connect E s w)) tt eq_refl)
      as (Hmc & _)
  end.
  rewrite Hmc. reflexivity.
Defined.

(** A failing constructor: what [connect] does then. *)
Lemma connect_fails_run (E : Env) (settings : Settings) (w : World) (e : exn) :
  AsyncClient_init E (client_args settings (mcp_client w)) = Some e ->
  exists w1,
    MCPClient.connect E settings w = (Raises e, w1)
    /\ mcp_client w1 = mcp_client w
    /\ builds (trace w1) = builds (trace w)
    /\ posts (trace w1) = posts (trace w)
    /\ exists before,
         logged (trace w1)
         = before ++ [(ERROR, "Failed to connect to MCP server: {e}", [AExn e])].
Proof.
  destruct w as [[su tok to hc] tr ck].
  unfold MCPClient.connect, MCPClient.AsyncClient, client_args. unfold_py. cbn.
  destruct (str_truthy tok); cbn; intros ->; cbn;
    eexists; (split; [reflexivity|]); trace_simpl;
    do 3 (split; [reflexivity|]);
    match goal with |- exists before, ?l ++ [?x] = _ => exists l; reflexivity end.
Qed.

(** What [disconnect] does. *)
Lemma disconnect_run (w : World) :
  MCPClient.disconnect w
  = (Returns tt,
     {| mcp_client := match _http_client (mcp_client w) with
                      | Some _ => {| server_url := server_url (mcp_client w);
                                     auth_token := auth_token (mcp_client w);
                                     timeout := timeout (mcp_client w);
                                     _http_client := None |}
                      | None => mcp_client w
                      end;
        trace := (trace w ++ match _http_client (mcp_client w) with
                             | Some c => [EvAclose c]
                             | None => []
                             end)
                 ++ [EvLog INFO "Disconnected from Splunk MCP Server" []];
        clock := clock w |}).
Proof.
  destruct w as [[su tok to [c|]] tr ck];
    unfold MCPClient.disconnect; unfold_py; cbn; rewrite ?app_nil_r; reflexivity.
Qed.

(** X2.  When building the HTTP client raises, [connect] logs the failure
    and raises the same exception; the client object is left as it was (a
    client already in place stays in place) and nothing is sent. *)
Theorem connect_failure_keeps_state (E : Env) (settings : Settings) (w : World) (e : exn) :
  AsyncClient_init E (client_args settings (mcp_client w)) = Some e ->
  exists w1,
    MCPClient.connect E settings w = (Raises e, w1)
    /\ mcp_client w1 = mcp_client w
    /\ builds (trace w1) = builds (trace w)
    /\ posts (trace w1) = posts (trace w)
    /\ exists before,
         logged (trace w1)
         = before ++ [(ERROR, "Failed to connect to MCP server: {e}", [AExn e])].
Proof.
  apply connect_fails_run.
Qed.

(** X2, run: the base URL is malformed and the constructor refuses it. *)
Lemma connect_failure_keeps_state_witness :
  exists w1,
    MCPClient.connect (Fixtures.unbuildable Fixtures.InvalidURL) defaults (Demo.world0 defaults)
    = (Raises Fixtures.InvalidURL, w1)
    /\ mcp_client w1 = mcp_client (Demo.world0 defaults).
Proof.
  destruct (connect_failure_keeps_state
              (Fixtures.unbuildable Fixtures.InvalidURL) defaults (Demo.world0 defaults)
              Fixtures.InvalidURL eq_refl) as (w1 & Hrun & Hmc & _).
  exists w1. split; assumption.
Defined.

(** X3.  [disconnect] never raises and leaves no client in place.  It
    closes the client that was in place, once, and closes nothing when
    there was none, so that a second [disconnect] in a row only logs. *)
Theorem disconnect_is_idempotent (w : World) :
  exists w1 w2,
    MCPClient.disconnect w = (Returns tt, w1)
    /\ _http_client (mcp_client w1) = None
    /\ closes (trace w1)
       = closes (trace w) ++ match _http_client (mcp_client w) with
                             | Some c => [c]
                             | None => []
                             end
    /\ posts (trace w1) = posts (trace w)
    /\ MCPClient.disconnect w1 = (Returns tt, w2)
    /\ mcp_client w2 = mcp_client w1
    /\ closes (trace w2) = closes (trace w1).
Proof.
  exists (snd (MCPClient.disconnect w)),
         (snd (MCPClient.disconnect (snd (MCPClient.disconnect w)))).
  rewrite !disconnect_run. cbn [snd].
  destruct w as [[su tok to [c|]] tr ck]; trace_simpl; auto 10.
Qed.

(** X4.  When no connection context exists and the client cannot be built,
    a call raises the constructor's exception without sending anything,
    and the client object still has no context, so that the next call
    tries to connect again. *)
Theorem send_request_unbuildable_client (E : Env) (settings : Settings)
        (w : World) (e : exn) (m : string) (p : json) (i : Z) :
  _http_client (mcp_client w) = None ->
  AsyncClient_init E (client_args settings (mcp_client w)) = Some e ->
  exists w1,
    MCPClient._send_request E settings m p i w = (Raises e, w1)
    /\ mcp_client w1 = mcp_client w
    /\ posts (trace w1) = posts (trace w).
Proof.
  intros Hnone Hinit.
  rewrite send_request_connects by assumption.
  destruct (connect_fails_run E settings w e Hinit) as (w1 & Hrun & Hmc & _ & Hp & _).
  exists w1. unfold bind. rewrite Hrun. auto.
Qed.

(** X4, run: a fresh client object and a constructor that refuses the URL. *)
Lemma send_request_unbuildable_client_witness :
  exists w1,
    MCPClient._send_request (Fixtures.unbuildable Fixtures.InvalidURL) defaults
                            "tools/list" (JDict []) 1 (Demo.world0 defaults)
    = (Raises Fixtures.InvalidURL, w1)
    /\ mcp_client w1 = mcp_client (Demo.world0 defaults)
    /\ posts (trace w1) = posts (trace (Demo.world0 defaults)).
Proof.
  apply (send_request_unbuildable_client
           (Fixtures.unbuildable Fixtures.InvalidURL) defaults (Demo.world0 defaults)
           Fixtures.InvalidURL "tools/list" (JDict []) 1); reflexivity.
Defined.

(* --------------------------------------------------------------------- *)
(** *** The call primitive and its wrappers *)
(* --------------------------------------------------------------------- *)

(** X5.  A 2xx response whose body parses to anything but a mapping (a
    list, a string, a number, a boolean, null) never yields a result: the
    call raises a [TypeError] or an [AttributeError]. *)
Theorem send_request_non_mapping_body_raises (E : Env) (settings : Settings)
        (w : World) (c : Httpx.AsyncClient) (m : string) (p : json) (i : Z)
        (r : Response) (j : json) :
  client_for E settings w = Returns c ->
  http_post E c "/" (MCPClient.envelope m p i) = Returns r ->
  Httpx.is_success r = true ->
  json_body r = Some j ->
  (forall d, j <> JDict d) ->
  exists what,
    fst (MCPClient._send_request E settings m p i w) = Raises (TypeError what)
    \/ fst (MCPClient._send_request E settings m p i w) = Raises (AttributeError what).
Proof.
  intros Hfor Hup Hok Hj Hnd.
  destruct (send_request_run E settings w c m p i Hfor) as (w' & evs & Hrun & _).
  rewrite Hrun. cbn [fst]. unfold exchange, result_of_response, Httpx.raise_for_status.
  rewrite Hup, Hj, Hok. cbv beta iota zeta.
  destruct j as [ | b | z | lit | s | l | d ]; cbn;
    try (eexists; left; reflexivity).
  - destruct (str_contains "error" s); cbn; eexists; [left|right]; reflexivity.
  - destruct (existsb _ l); cbn; eexists; [left|right]; reflexivity.
  - exfalso. apply (Hnd d). reflexivity.
Qed.

(** X5, run: HTTP 200 with the JSON body [[]]. *)
Lemma send_request_non_mapping_body_raises_witness :
  exists what,
    fst (MCPClient._send_request (Demo.env (Demo.ok_response (JList []))) defaults
                                 "tools/list" (JDict []) 1 (Demo.world0 defaults))
    = Raises (TypeError what)
    \/ fst (MCPClient._send_request (Demo.env (Demo.ok_response (JList []))) defaults
                                    "tools/list" (JDict []) 1 (Demo.world0 defaults))
       = Raises (AttributeError what).
Proof.
  apply (send_request_non_mapping_body_raises
           (Demo.env (Demo.ok_response (JList []))) defaults (Demo.world0 defaults)
           (client_args defaults (mcp_client (Demo.world0 defaults)))
           "tools/list" (JDict []) 1 (Demo.ok_response (JList [])) (JList []));
    try reflexivity.
  intros d H. discriminate H.
Defined.

(** X6.  When the response body parses as JSON, the audit toggle has no
    bearing on what the call reports: two calls that receive the same
    response report the same outcome, whatever their settings. *)
Theorem audit_toggle_preserves_json_outcome (E : Env) (s1 s2 : Settings)
        (w1 w2 : World) (c1 c2 : Httpx.AsyncClient)
        (m : string) (p : json) (i : Z) (r : Response) (j : json) :
  client_for E s1 w1 = Returns c1 ->
  client_for E s2 w2 = Returns c2 ->
  http_post E c1 "/" (MCPClient.envelope m p i) = Returns r ->
  http_post E c2 "/" (MCPClient.envelope m p i) = Returns r ->
  json_body r = Some j ->
  fst (MCPClient._send_request E s1 m p i w1) = fst (MCPClient._send_request E s2 m p i w2).
Proof.
  intros Hf1 Hf2 Hp1 Hp2 Hj.
  destruct (send_request_run E s1 w1 c1 m p i Hf1) as (w1' & evs1 & Hrun1 & _).
  destruct (send_request_run E s2 w2 c2 m p i Hf2) as (w2' & evs2 & Hrun2 & _).
  rewrite Hrun1, Hrun2. cbn [fst]. unfold exchange, result_of_response.
  rewrite Hp1, Hp2, Hj. reflexivity.
Qed.

(** X6, run: the same 200 response with auditing off and on. *)
Lemma audit_toggle_preserves_json_outcome_witness :
  let r := Demo.ok_response (JDict [("result", JDict [("tools", JList [])])]) in
  fst (MCPClient._send_request (Demo.env r) (Demo.settings_with None false)
                               "tools/list" (JDict []) 1
                               (Demo.world0 (Demo.settings_with None false)))
  = fst (MCPClient._send_request (Demo.env r) (Demo.settings_with None true)
                                 "tools/list" (JDict []) 1
                                 (Demo.world0 (Demo.settings_with None true))).
Proof.
  cbv zeta.
  apply (audit_toggle_preserves_json_outcome
           (Demo.env (Demo.ok_response (JDict [("result", JDict [("tools", JList [])])])))
           (Demo.settings_with None false) (Demo.settings_with None true)
           (Demo.world0 (Demo.settings_with None false))
           (Demo.world0 (Demo.settings_with None true))
           (client_args (Demo.settings_with None false)
                        (mcp_client (Demo.world0 (Demo.settings_with None false))))
           (client_args (Demo.settings_with None true)
                        (mcp_client (Demo.world0 (Demo.settings_with None true))))
           "tools/list" (JDict []) 1
           (Demo.ok_response (JDict [("result", JDict [("tools", JList [])])]))
           (JDict [("result", JDict [("tools", JList [])])]));
    reflexivity.
Defined.

(** X7.  With auditing off, a call on a connected client logs nothing and
    touches nothing else: whatever the outcome, the only effect is the one
    POST of the envelope to the root path. *)
Theorem send_request_unaudited_effects (E : Env) (settings : Settings)
        (w : World) (c : Httpx.AsyncClient) (m : string) (p : json) (i : Z) :
  bridge_log_payloads settings = false ->
  _http_client (mcp_client w) = Some c ->
  snd (MCPClient._send_request E settings m p i w)
  = {| mcp_client := mcp_client w;
       trace := trace w ++ [EvPost c "/" (MCPClient.envelope m p i)];
       clock := clock w |}.
Proof.
  intros Hoff Hc.
  destruct w as [[su tok to hc] tr ck]. simpl in Hc. subst hc.
  unfold MCPClient._send_request, MCPClient.post, MCPClient.response_json.
  rewrite Hoff. unfold_py. cbn.
  destruct (http_post E c "/" (MCPClient.envelope m p i)) as [r|e]; cbn; [|reflexivity].
  destruct (json_body r) as [j|]; cbn; [|reflexivity].
  destruct (Httpx.raise_for_status r); cbn; [|reflexivity].
  destruct (py_in "error" j) as [[|]|]; cbn; try reflexivity.
  destruct (py_getitem j "error"); reflexivity.
Qed.

(** X7, run: a connected client, auditing off. *)
Lemma send_request_unaudited_effects_witness :
  trace (snd (MCPClient._send_request (Demo.env Demo.html_500) defaults
                                      "tools/list" (JDict []) 1 Fixtures.connected0))
  = [EvPost (client_args defaults (MCPClient.__init__ defaults)) "/"
            (MCPClient.envelope "tools/list" (JDict []) 1)].
Proof.
  rewrite (send_request_unaudited_effects
             (Demo.env Demo.html_500) defaults Fixtures.connected0
             (client_args defaults (MCPClient.__init__ defaults))
             "tools/list" (JDict []) 1 eq_refl eq_refl).
  reflexivity.
Defined.

(** X8.  When the exchange with the upstream raises (connection refused,
    timeout), the call raises that same exception, after the one POST it
    attempted: nothing is retried and nothing is wrapped. *)
Theorem send_request_network_failure (E : Env) (settings : Settings)
        (w : World) (c : Httpx.AsyncClient) (m : string) (p : json) (i : Z) (e : exn) :
  client_for E settings w = Returns c ->
  http_post E c "/" (MCPClient.envelope m p i) = Raises e ->
  fst (MCPClient._send_request E settings m p i w) = Raises e
  /\ exists sent,
       trace (snd (MCPClient._send_request E settings m p i w)) = trace w ++ sent
       /\ posts sent = [(c, "/", MCPClient.envelope m p i)].
Proof.
  intros Hfor Hup.
  destruct (send_request_run E settings w c m p i Hfor) as (w' & evs & Hrun & _ & Htr & Hp & _).
  rewrite Hrun. cbn [fst snd]. unfold exchange. rewrite Hup.
  split; [reflexivity|]. exists evs. auto.
Qed.

(** X8, run: the upstream times out. *)
Lemma send_request_network_failure_witness :
  fst (MCPClient._send_request (Fixtures.unreachable Fixtures.ReadTimeout) defaults
                               "tools/list" (JDict []) 1 (Demo.world0 defaults))
  = Raises Fixtures.ReadTimeout.
Proof.
  apply (send_request_network_failure
           (Fixtures.unreachable Fixtures.ReadTimeout) defaults (Demo.world0 defaults)
           (client_args defaults (mcp_client (Demo.world0 defaults)))
           "tools/list" (JDict []) 1 Fixtures.ReadTimeout); reflexivity.
Defined.

(** X9.  The client's [list_tools] hands back what the call primitive
    reports for "tools/list": a failure is raised again unchanged; from a
    result mapping it returns the "tools" entry, an empty list when the
    entry is missing; and when the entry has no length (a number, a
    boolean, null) the [len()] taken for the log line raises, so the call
    fails although the upstream answered. *)
Theorem list_tools_unwraps (E : Env) (settings : Settings) (w : World) :
  let sent := fst (MCPClient._send_request E settings "tools/list" (JDict []) 1 w) in
  let got := fst (MCPClient.list_tools E settings w) in
  (forall e, sent = Raises e -> got = Raises e)
  /\ (forall res, sent = Returns (JDict res) -> Dict.get "tools" res = None ->
      got = Returns (JList []))
  /\ (forall res l, sent = Returns (JDict res) -> Dict.get "tools" res = Some (JList l) ->
      got = Returns (JList l))
  /\ (forall res v e, sent = Returns (JDict res) -> Dict.get "tools" res = Some v ->
      py_len v = Raises e -> got = Raises e).
Proof.
  cbv zeta. unfold MCPClient.list_tools. unfold_py.
  destruct (MCPClient._send_request E settings "tools/list" (JDict []) 1 w)
    as [[result|e0] w'] eqn:Hrun; cbn [fst].
  - split; [intros e H; discriminate H|].
    split; [|split]; intros res; intros;
      match goal with H : Returns _ = Returns _ |- _ => inversion H; subst; clear H end;
      cbn; unfold Dict.get_default;
      match goal with H : Dict.get "tools" _ = _ |- _ => rewrite H end; cbn;
      try reflexivity.
    match goal with H : py_len _ = _ |- _ => rewrite H end. reflexivity.
  - split; [intros e H; inversion H; subst; reflexivity|].
    split; [|split]; intros; discriminate.
Qed.

(** X9, run: the upstream answers [{"result": {"tools": 5}}]. *)
Lemma list_tools_unwraps_witness :
  fst (MCPClient.list_tools
         (Demo.env (Demo.ok_response (JDict [("result", JDict [("tools", JInt 5)])])))
         defaults (Demo.world0 defaults))
  = Raises (TypeError "object has no len()").
Proof.
  pose proof (list_tools_unwraps
                (Demo.env (Demo.ok_response (JDict [("result", JDict [("tools", JInt 5)])])))
                defaults (Demo.world0 defaults)) as H.
  cbv zeta in H. destruct H as (_ & _ & _ & H).
  apply (H [("tools", JInt 5)] (JInt 5)); reflexivity.
Defined.

(** X10.  The client's [list_resources] does the same for
    "resources/list" and the "resources" entry. *)
Theorem list_resources_unwraps (E : Env) (settings : Settings) (w : World) :
  let sent := fst (MCPClient._send_request E settings "resources/list" (JDict []) 3 w) in
  let got := fst (MCPClient.list_resources E settings w) in
  (forall e, sent = Raises e -> got = Raises e)
  /\ (forall res, sent = Returns (JDict res) -> Dict.get "resources" res = None ->
      got = Returns (JList []))
  /\ (forall res l, sent = Returns (JDict res) -> Dict.get "resources" res = Some (JList l) ->
      got = Returns (JList l))
  /\ (forall res v e, sent = Returns (JDict res) -> Dict.get "resources" res = Some v ->
      py_len v = Raises e -> got = Raises e).
Proof.
  cbv zeta. unfold MCPClient.list_resources. unfold_py.
  destruct (MCPClient._send_request E settings "resources/list" (JDict []) 3 w)
    as [[result|e0] w'] eqn:Hrun; cbn [fst].
  - split; [intros e H; discriminate H|].
    split; [|split]; intros res; intros;
      match goal with H : Returns _ = Returns _ |- _ => inversion H; subst; clear H end;
      cbn; unfold Dict.get_default;
      match goal with H : Dict.get "resources" _ = _ |- _ => rewrite H end; cbn;
      try reflexivity.
    match goal with H : py_len _ = _ |- _ => rewrite H end. reflexivity.
  - split; [intros e H; inversion H; subst; reflexivity|].
    split; [|split]; intros; discriminate.
Qed.

(** X10, run: the upstream answers [{"result": {}}]. *)
Lemma list_resources_unwraps_witness :
  fst (MCPClient.list_resources
         (Demo.env (Demo.ok_response (JDict [("result", JDict [])])))
         defaults (Demo.world0 defaults))
  = Returns (JList []).
Proof.
  pose proof (list_resources_unwraps
                (Demo.env (Demo.ok_response (JDict [("result", JDict [])])))
                defaults (Demo.world0 defaults)) as H.
  cbv zeta in H. destruct H as (_ & H & _).
  apply (H []); reflexivity.
Defined.

(* --------------------------------------------------------------------- *)
(** *** The route handlers *)
(* --------------------------------------------------------------------- *)

(** X11.  Reading a resource: the route sends exactly one request, the
    envelope with method "resources/read" and params [{"uri": uri}], and
    when the upstream's result holds a "contents" list whose entries all
    validate, it returns those entries, in order. *)
Theorem read_resource_returns_contents (E : Env) (settings : Settings)
        (w : World) (c : Httpx.AsyncClient) (uri : string) (r : Response)
        (d res : list (string * json)) (l : list json)
        (cs : list Resources.ResourceContent) :
  client_for E settings w = Returns c ->
  http_post E c "/" (MCPClient.envelope "resources/read" (JDict [("uri", JStr uri)]) 4)
  = Returns r ->
  Httpx.is_success r = true ->
  json_body r = Some (JDict d) ->
  Dict.get "error" d = None ->
  Dict.get "result" d = Some (JDict res) ->
  Dict.get "contents" res = Some (JList l) ->
  validate_each Resources.ResourceContent_of l = Returns cs ->
  fst (Resources.read_resource E settings uri w) = Returns {| Resources.contents := cs |}
  /\ exists sent,
       trace (snd (Resources.read_resource E settings uri w)) = trace w ++ sent
       /\ posts sent
          = [(c, "/",
              JDict [("jsonrpc", JStr "2.0");
                     ("id", JInt 4);
                     ("method", JStr "resources/read");
                     ("params", JDict [("uri", JStr uri)])])].
Proof.
  intros Hfor Hup Hok Hj Herr Hres Hc Hval.
  destruct (read_resource_run E settings w c uri Hfor) as (w' & evs & Hrun & Htr & Hp & _).
  rewrite Hrun. cbn [fst snd]. split; [|exists evs; auto].
  unfold exchange, result_of_response, Httpx.raise_for_status.
  rewrite Hup, Hj, Hok. cbv beta iota zeta.
  unfold py_in, Dict.mem. rewrite Herr.
  unfold py_get at 1. unfold Dict.get_default. rewrite Hres.
  unfold and_then, shape_read_result, py_get, Dict.get_default. rewrite Hc.
  unfold Resources.ResourceReadResponse_new, validate_list. rewrite Hval. reflexivity.
Qed.

(** X11, run: [splunk://indexes/main], answered with one text entry. *)
Lemma read_resource_returns_contents_witness :
  let entry := JDict [("uri", JStr "splunk://indexes/main"); ("text", JStr "main")] in
  let body := JDict [("result", JDict [("contents", JList [entry])])] in
  fst (Resources.read_resource (Demo.env (Demo.ok_response body)) defaults
                               "splunk://indexes/main" (Demo.world0 defaults))
  = Returns {| Resources.contents :=
                 [{| Resources.content_uri := "splunk://indexes/main";
                     Resources.content_mimeType := None;
                     Resources.content_text := Some "main";
                     Resources.content_blob := None |}] |}.
Proof.
  cbv zeta.
  match goal with |- fst (Resources.read_resource (Demo.env (Demo.ok_response ?body)) _ _ _) = _ =>
    apply (read_resource_returns_contents
             (Demo.env (Demo.ok_response body)) defaults (Demo.world0 defaults)
             (client_args defaults (mcp_client (Demo.world0 defaults)))
             "splunk://indexes/main" (Demo.ok_response body)
             [("result", JDict [("contents",
                 JList [JDict [("uri", JStr "splunk://indexes/main"); ("text", JStr "main")]])])]
             [("contents",
                 JList [JDict [("uri", JStr "splunk://indexes/main"); ("text", JStr "main")]])]
             [JDict [("uri", JStr "splunk://indexes/main"); ("text", JStr "main")]])
  end; reflexivity.
Defined.

(** X12.  Each of the four route handlers returns the validated result
    when the client call and the validation of its result both succeed;
    otherwise it raises a 502 whose detail is the handler's prefix
    followed by the string of the very exception that the client call, or
    else the validation, raised.  Nothing else is ever raised. *)
Theorem routes_raise_only_bad_gateway (E : Env) (settings : Settings)
        (coerce_bool : json -> option bool) (w : World) :
  fst (Tools.list_tools E settings w)
  = bad_gateway E "Failed to communicate with MCP server: "
      (and_then (fst (MCPClient.list_tools E settings w)) Tools.ToolListResponse_new)
  /\ (forall tool_name request,
        fst (Tools.execute_tool E settings coerce_bool tool_name request w)
        = bad_gateway E "Failed to execute tool on MCP server: "
            (and_then
               (fst (MCPClient.call_tool E settings tool_name
                       (JDict (Tools.arguments request))
                       (after w (EvLog INFO
                                   "Executing tool '{tool_name}' with arguments: {request.arguments}"
                                   [AStr tool_name; AJson (JDict (Tools.arguments request))]))))
               (shape_tool_result coerce_bool)))
  /\ fst (Resources.list_resources E settings w)
     = bad_gateway E "Failed to communicate with MCP server: "
         (and_then (fst (MCPClient.list_resources E settings w))
                   Resources.ResourceListResponse_new)
  /\ (forall uri,
        fst (Resources.read_resource E settings uri w)
        = bad_gateway E "Failed to read resource from MCP server: "
            (and_then
               (fst (MCPClient.read_resource E settings uri
                       (after w (EvLog INFO "Reading resource: {uri}" [AStr uri]))))
               shape_read_result)).
Proof.
  unfold Tools.list_tools, Tools.execute_tool, Resources.list_resources,
    Resources.read_resource, after, shape_tool_result, shape_read_result,
    bad_gateway, and_then, HTTP_502_BAD_GATEWAY.
  unfold_py. cbv beta iota zeta.
  repeat split; intros;
    match goal with
    | |- context [let (_, _) := ?m ?w0 in _] =>
        destruct (m w0) as [[result|e] w1]; cbn [fst]; [|reflexivity]
    end.
  - destruct (Tools.ToolListResponse_new result); reflexivity.
  - destruct (py_get result "content" (JList [])) as [content|e]; [|reflexivity].
    destruct (py_get result "isError" (JBool false)) as [is_error|e]; [|reflexivity].
    destruct (Tools.ToolExecutionResponse_new coerce_bool content is_error); reflexivity.
  - destruct (Resources.ResourceListResponse_new result); reflexivity.
  - destruct (py_get result "contents" (JList [])) as [contents|e]; [|reflexivity].
    destruct (Resources.ResourceReadResponse_new contents); reflexivity.
Qed.

Lemma validate_each_fails {A : Type} (f : json -> outcome A) (l : list json) (x : json) :
  In x l -> (forall a, f x <> Returns a) -> exists e, validate_each f l = Raises e.
Proof.
  induction l as [|y l IH]; intros Hin Hbad; [contradiction|].
  simpl. destruct (f y) as [a|e] eqn:Hy; [|eexists; reflexivity].
  destruct Hin as [->|Hin]; [exfalso; eapply Hbad; eassumption|].
  destruct (IH Hin Hbad) as (e & He). rewrite He. eexists; reflexivity.
Qed.

(** X14.  One incomplete entry spoils the listing: when the upstream's
    tool list holds an entry that does not validate (say, a tool without a
    description), the tool-listing route answers 502 for the whole list. *)
Theorem tools_route_rejects_incomplete_tool (E : Env) (settings : Settings)
        (w : World) (l : list json) (x : json) :
  fst (MCPClient.list_tools E settings w) = Returns (JList l) ->
  In x l ->
  (forall t, Tools.ToolInfo_of x <> Returns t) ->
  exists e,
    fst (Tools.list_tools E settings w)
    = Raises (HTTPException 502
                (String.append "Failed to communicate with MCP server: " (str_exn E e))
                None).
Proof.
  intros Hrun Hin Hbad.
  destruct (validate_each_fails Tools.ToolInfo_of l x Hin Hbad) as (e & He).
  exists e. unfold Tools.list_tools, HTTP_502_BAD_GATEWAY. unfold_py.
  destruct (MCPClient.list_tools E settings w) as [[tools|e0] w1]; cbn in Hrun;
    [|discriminate Hrun].
  inversion Hrun; subst. unfold Tools.ToolListResponse_new, validate_list.
  rewrite He. reflexivity.
Qed.

(** X14, run: a tool that has a name and a schema but no description. *)
Lemma tools_route_rejects_incomplete_tool_witness :
  let tool := JDict [("name", JStr "search"); ("inputSchema", JDict [])] in
  let E0 := Demo.env (Demo.ok_response (JDict [("result", JDict [("tools", JList [tool])])])) in
  exists e,
    fst (Tools.list_tools E0 defaults (Demo.world0 defaults))
    = Raises (HTTPException 502
                (String.append "Failed to communicate with MCP server: " (str_exn E0 e))
                None).
Proof.
  cbv zeta.
  apply (tools_route_rejects_incomplete_tool
           (Demo.env (Demo.ok_response
              (JDict [("result", JDict [("tools",
                 JList [JDict [("name", JStr "search"); ("inputSchema", JDict [])]])])])))
           defaults (Demo.world0 defaults)
           [JDict [("name", JStr "search"); ("inputSchema", JDict [])]]
           (JDict [("name", JStr "search"); ("inputSchema", JDict [])])).
  - reflexivity.
  - left. reflexivity.
  - intros t H. discriminate H.
Defined.



(** X16.  The [arguments] of a tool-execution request default to an empty
    mapping: a body that is a mapping without "arguments" validates, and
    the envelope the route then sends carries [{"name": N, "arguments": {}}];
    a body that is not a mapping, or whose "arguments" is not a mapping, is
    refused before anything is sent. *)
Theorem execute_tool_default_arguments (E : Env) (settings : Settings)
        (coerce_bool : json -> option bool)
        (w : World) (c : Httpx.AsyncClient) (N : string) :
  client_for E settings w = Returns c ->
  (forall body,
      (forall d, body <> JDict d) ->
      Tools.ToolExecutionRequest_of_body body = Raises (ValidationError "body"))
  /\ (forall d v,
        Dict.get "arguments" d = Some v -> (forall a, v <> JDict a) ->
        Tools.ToolExecutionRequest_of_body (JDict d) = Raises (ValidationError "arguments"))
  /\ forall d,
      Dict.get "arguments" d = None ->
      exists request sent,
        Tools.ToolExecutionRequest_of_body (JDict d) = Returns request
        /\ trace (snd (Tools.execute_tool E settings coerce_bool N request w)) = trace w ++ sent
        /\ posts sent
           = [(c, "/",
               JDict [("jsonrpc", JStr "2.0");
                      ("id", JInt 2);
                      ("method", JStr "tools/call");
                      ("params", JDict [("name", JStr N); ("arguments", JDict [])])])].
Proof.
  intros Hfor. split; [|split].
  - intros body Hnd. destruct body; try reflexivity. exfalso. eapply Hnd. reflexivity.
  - intros d v Hv Hnd. unfold Tools.ToolExecutionRequest_of_body. rewrite Hv.
    destruct v; try reflexivity. exfalso. eapply Hnd. reflexivity.
  - intros d Hnone.
    destruct (execute_tool_run E settings coerce_bool w c N {| Tools.arguments := [] |} Hfor)
      as (w' & evs & Hrun & Htr & Hp & _).
    exists {| Tools.arguments := [] |}, evs.
    unfold Tools.ToolExecutionRequest_of_body. rewrite Hnone, Hrun. auto.
Qed.

(** X16, run: the body [{}] posted for the tool "list_indexes". *)
Lemma execute_tool_default_arguments_witness :
  let E0 := Demo.env (Demo.ok_response (JDict [("result", JDict [])])) in
  let w := Demo.world0 defaults in
  exists request sent,
    Tools.ToolExecutionRequest_of_body (JDict []) = Returns request
    /\ trace (snd (Tools.execute_tool E0 defaults (fun _ => None) "list_indexes" request w))
       = trace w ++ sent
    /\ posts sent
       = [(client_args defaults (mcp_client w), "/",
           JDict [("jsonrpc", JStr "2.0");
                  ("id", JInt 2);
                  ("method", JStr "tools/call");
                  ("params", JDict [("name", JStr "list_indexes");
                                    ("arguments", JDict [])])])].
Proof.
  cbv zeta.
  destruct (execute_tool_default_arguments
              (Demo.env (Demo.ok_response (JDict [("result", JDict [])]))) defaults
              (fun _ => None) (Demo.world0 defaults)
              (client_args defaults (mcp_client (Demo.world0 defaults)))
              "list_indexes" eq_refl) as (_ & _ & H).
  apply (H [] eq_refl).
Defined.

(* --------------------------------------------------------------------- *)
(** *** The audit interceptor, step by step *)
(* --------------------------------------------------------------------- *)

(** X18.  With auditing on, an exception raised downstream passes through
    the interceptor unchanged: [dispatch] raises it in the very world the
    handler left, so no "Outgoing" line is logged for that exchange. *)
Theorem dispatch_propagates_handler_exception (E : Env) (C : PyJson.Codec)
        (settings : Settings) (request : Starlette.Request)
        (call_next : Starlette.Request -> M Starlette.Response)
        (w w3 : World) (pl : logarg) (e : exn) :
  bridge_log_payloads settings = true ->
  body_log C (Starlette.observed_body request) = Returns pl ->
  call_next (replayed request) (handler_world E w request pl) = (Raises e, w3) ->
  Logging.dispatch E C settings request call_next w = (Raises e, w3).
Proof.
  intros Hon Hlog Hcall.
  rewrite (dispatch_enabled_exact E C settings request call_next w pl Hon Hlog), Hcall.
  reflexivity.
Qed.

(** X19.  With auditing on, the two log lines of one exchange carry the
    same identifier, the first clock reading of the exchange; they enclose
    whatever the handler did; and the duration in the "Outgoing" line is
    the difference of the readings taken right after and right before the
    handler ran. *)
Theorem dispatch_correlates_log_lines (E : Env) (C : PyJson.Codec)
        (settings : Settings) (request : Starlette.Request)
        (call_next : Starlette.Request -> M Starlette.Response)
        (w w3 : World) (pl rl : logarg) (response : Starlette.Response)
        (handled : list event) :
  bridge_log_payloads settings = true ->
  body_log C (Starlette.observed_body request) = Returns pl ->
  call_next (replayed request) (handler_world E w request pl) = (Returns response, w3) ->
  trace w3 = trace (handler_world E w request pl) ++ handled ->
  response_log E C (Starlette.sent_body response) = Returns rl ->
  let rid := time_time E (clock w) in
  trace (snd (Logging.dispatch E C settings request call_next w))
  = trace w
    ++ [EvRequestBodyRead (Starlette.observed_body request); incoming_line rid request pl]
    ++ handled
    ++ [EvResponseBodyDrained (Starlette.sent_body response);
        outgoing_line rid request (Starlette.status_code response)
                      (time_time E (clock w3) - time_time E (S (clock w))) rl].
Proof.
  intros Hon Hlog Hcall Htr Hrl rid.
  rewrite (dispatch_enabled_exact E C settings request call_next w pl Hon Hlog), Hcall, Hrl.
  cbn [snd trace]. rewrite Htr. unfold handler_world. cbn [trace].
  rewrite <- !app_assoc. reflexivity.
Qed.

(** X20.  With auditing on, an empty inbound body is logged as the empty
    mapping, whatever the codec: the "<Empty body>" text is never what the
    "Incoming" line shows, and the handler runs. *)
Theorem dispatch_logs_empty_body_as_mapping (E : Env) (C : PyJson.Codec)
        (settings : Settings) (request : Starlette.Request)
        (call_next : Starlette.Request -> M Starlette.Response) (w : World) :
  bridge_log_payloads settings = true ->
  Starlette.observed_body request = [] ->
  (forall r w0, exists evs, trace (snd (call_next r w0)) = trace w0 ++ evs) ->
  exists rest,
    trace (snd (Logging.dispatch E C settings request call_next w))
    = trace w
      ++ [EvRequestBodyRead []; incoming_line (time_time E (clock w)) request (AJson (JDict []))]
      ++ rest.
Proof.
  intros Hon Hempty Hext.
  assert (Hlog : body_log C (Starlette.observed_body request) = Returns (AJson (JDict []))).
  { rewrite Hempty. reflexivity. }
  rewrite (dispatch_enabled_exact E C settings request call_next w _ Hon Hlog).
  destruct (Hext (replayed request) (handler_world E w request (AJson (JDict []))))
    as (evs & Hevs).
  destruct (call_next (replayed request) (handler_world E w request (AJson (JDict []))))
    as [[response|e] w3]; cbn [snd] in *.
  - eexists. cbn [trace]. rewrite Hevs. unfold handler_world. cbn [trace].
    rewrite Hempty, <- !app_assoc. cbn. reflexivity.
  - exists evs. rewrite Hevs. unfold handler_world. cbn [trace].
    rewrite Hempty, <- !app_assoc. reflexivity.
Qed.

(** X18, run: the handler raises. *)
Lemma dispatch_propagates_handler_exception_witness :
  fst (Logging.dispatch (Demo.env Demo.html_200) Demo.codec (Demo.settings_with None true)
                        Samples.post_empty_object (Samples.fails Fixtures.ReadTimeout)
                        (Demo.world0 (Demo.settings_with None true)))
  = Raises Fixtures.ReadTimeout.
Proof.
  rewrite (dispatch_propagates_handler_exception
             (Demo.env Demo.html_200) Demo.codec (Demo.settings_with None true)
             Samples.post_empty_object (Samples.fails Fixtures.ReadTimeout)
             (Demo.world0 (Demo.settings_with None true))
             (handler_world (Demo.env Demo.html_200)
                            (Demo.world0 (Demo.settings_with None true))
                            Samples.post_empty_object (AJson (JDict [])))
             (AJson (JDict [])) Fixtures.ReadTimeout eq_refl eq_refl eq_refl).
  reflexivity.
Defined.

(** X19, run: both lines carry the identifier 0, the first clock reading. *)
Lemma dispatch_correlates_log_lines_witness :
  let body := list_byte_of_string "{}" in
  let reply := list_byte_of_string "not json" in
  trace (snd (Logging.dispatch (Demo.env Demo.html_200) Demo.codec
                               (Demo.settings_with None true)
                               Samples.post_empty_object (Samples.answers Samples.chunked)
                               (Demo.world0 (Demo.settings_with None true))))
  = [EvRequestBodyRead body;
     incoming_line 0 Samples.post_empty_object (AJson (JDict []));
     EvResponseBodyDrained reply;
     outgoing_line 0 Samples.post_empty_object 200 1 (ABytes reply)].
Proof.
  cbv zeta.
  rewrite (dispatch_correlates_log_lines
             (Demo.env Demo.html_200) Demo.codec (Demo.settings_with None true)
             Samples.post_empty_object (Samples.answers Samples.chunked)
             (Demo.world0 (Demo.settings_with None true))
             (handler_world (Demo.env Demo.html_200)
                            (Demo.world0 (Demo.settings_with None true))
                            Samples.post_empty_object (AJson (JDict [])))
             (AJson (JDict [])) (ABytes (list_byte_of_string "not json"))
             Samples.chunked [] eq_refl eq_refl eq_refl eq_refl eq_refl).
  reflexivity.
Defined.

(** X20, run: a GET without a body. *)
Lemma dispatch_logs_empty_body_as_mapping_witness :
  exists rest,
    trace (snd (Logging.dispatch (Demo.env Demo.html_200) Demo.codec
                                 (Demo.settings_with None true)
                                 Samples.get_tools (Samples.answers Samples.chunked)
                                 (Demo.world0 (Demo.settings_with None true))))
    = [EvRequestBodyRead []; incoming_line 0 Samples.get_tools (AJson (JDict []))] ++ rest.
Proof.
  apply (dispatch_logs_empty_body_as_mapping
           (Demo.env Demo.html_200) Demo.codec (Demo.settings_with None true)
           Samples.get_tools (Samples.answers Samples.chunked)
           (Demo.world0 (Demo.settings_with None true)) eq_refl eq_refl).
  intros r w0. exists []. cbn. rewrite app_nil_r. reflexivity.
Defined.

(* --------------------------------------------------------------------- *)
(** *** The application *)
(* --------------------------------------------------------------------- *)

(** X22.  Start-up never raises and sends nothing.  When the client can be
    built it is in place afterwards; when it cannot, the failure is logged
    with the warning that the bridge will connect on the first request,
    and the client object is left as it was. *)
Theorem lifespan_startup_never_raises (E : Env) (settings : Settings) (w : World) :
  exists w1,
    Main.lifespan_startup E settings w = (Returns tt, w1)
    /\ posts (trace w1) = posts (trace w)
    /\ match AsyncClient_init E (client_args settings (mcp_client w)) with
       | None =>
           _http_client (mcp_client w1) = Some (client_args settings (mcp_client w))
       | Some e =>
           mcp_client w1 = mcp_client w
           /\ exists before,
                logged (trace w1)
                = before ++ [(ERROR, "Failed to connect to MCP server: {e}", [AExn e]);
                             (WARNING, "Bridge will attempt to connect on first request", [])]
       end.
Proof.
  destruct w as [[su tok to hc] tr ck].
  unfold Main.lifespan_startup, MCPClient.connect, MCPClient.AsyncClient, client_args.
  unfold_py. cbn.
  destruct (str_truthy tok); cbn;
    destruct (AsyncClient_init E _) as [e|]; cbn;
    eexists; (split; [reflexivity|]); trace_simpl;
    (split; [reflexivity|]); try reflexivity;
    (split; [reflexivity|]);
    match goal with
    | |- exists before, (?l ++ [?x]) ++ [?y] = _ =>
        exists l; rewrite <- app_assoc; reflexivity
    end.
Qed.

(** X23.  Start-up followed by shut-down on a fresh client object never
    raises, sends nothing and ends without a client: the client built at
    start-up, if one could be built, is the one shut-down closes, and
    nothing else is closed. *)
Theorem lifespan_closes_what_it_built (E : Env) (settings : Settings) (w : World) :
  _http_client (mcp_client w) = None ->
  exists w2 added,
    (Main.lifespan_startup E settings ;; Main.lifespan_shutdown) w = (Returns tt, w2)
    /\ _http_client (mcp_client w2) = None
    /\ posts (trace w2) = posts (trace w)
    /\ builds (trace w2) = builds (trace w) ++ added
    /\ closes (trace w2) = closes (trace w) ++ added.
Proof.
  destruct w as [[su tok to hc] tr ck]. cbn. intros ->.
  unfold Main.lifespan_shutdown, Main.lifespan_startup, MCPClient.disconnect,
    MCPClient.connect, MCPClient.AsyncClient.
  unfold_py. cbn.
  destruct (str_truthy tok); cbn;
    destruct (AsyncClient_init E _) as [e|]; cbn;
    eexists;
    first [ exists (@nil Httpx.AsyncClient);
            (split; [reflexivity|]); trace_simpl; repeat split; reflexivity
          | eexists [_];
            (split; [reflexivity|]); trace_simpl; repeat split; reflexivity ].
Qed.

(** X23, run: the default settings. *)
Lemma lifespan_closes_what_it_built_witness :
  exists w2 added,
    (Main.lifespan_startup (Demo.env Demo.html_200) defaults ;; Main.lifespan_shutdown)
      (Demo.world0 defaults) = (Returns tt, w2)
    /\ _http_client (mcp_client w2) = None
    /\ posts (trace w2) = posts (trace (Demo.world0 defaults))
    /\ builds (trace w2) = builds (trace (Demo.world0 defaults)) ++ added
    /\ closes (trace w2) = closes (trace (Demo.world0 defaults)) ++ added.
Proof.
  apply (lifespan_closes_what_it_built (Demo.env Demo.html_200) defaults (Demo.world0 defaults)).
  reflexivity.
Defined.



(* --------------------------------------------------------------------- *)
(** *** The CORS origins *)
(* --------------------------------------------------------------------- *)

Lemma split_comma_length (s : string) :
  List.length (Cors.split_comma s) = S (Cors.commas s).
Proof.
  induction s as [|a s IH]; simpl; [reflexivity|].
  destruct (Ascii.eqb a ","%char); simpl; [now rewrite IH|].
  destruct (Cors.split_comma s) as [|piece pieces]; simpl in *; [discriminate IH|exact IH].
Qed.

Lemma concat_split_comma (s : string) : String.concat "," (Cors.split_comma s) = s.
Proof.
  induction s as [|a s IH]; simpl; [reflexivity|].
  destruct (Ascii.eqb a ","%char) eqn:Ha.
  - apply Ascii.eqb_eq in Ha. subst a.
    pose proof (split_comma_length s) as Hlen.
    destruct (Cors.split_comma s) as [|piece pieces]; [discriminate Hlen|].
    simpl in *. now rewrite IH.
  - pose proof (split_comma_length s) as Hlen.
    destruct (Cors.split_comma s) as [|piece pieces]; [discriminate Hlen|].
    destruct pieces as [|p2 pieces]; simpl in *; now rewrite <- IH.
Qed.

Lemma space_prefix_shorter (l r : list ascii) :
  Cors.space_prefix l = Some r -> (List.length r < List.length l)%nat.
Proof.
  unfold Cors.space_prefix.
  destruct l as [|b0 [|b1 [|b2 r2]]]; try discriminate;
    repeat match goal with
           | |- context [if ?c then _ else _] => destruct c
           end;
    intros H; inversion H; subst; simpl; lia.
Qed.

Lemma space_suffix_shorter (l r : list ascii) :
  Cors.space_suffix l = Some r -> (List.length r < List.length l)%nat.
Proof.
  unfold Cors.space_suffix.
  destruct l as [|b0 [|b1 [|b2 r2]]]; try discriminate;
    repeat match goal with
           | |- context [if ?c then _ else _] => destruct c
           end;
    intros H; inversion H; subst; simpl; lia.
Qed.

Lemma space_suffix_drops (l r : list ascii) :
  Cors.space_suffix l = Some r -> exists p, l = p ++ r.
Proof.
  unfold Cors.space_suffix.
  destruct l as [|b0 [|b1 [|b2 r2]]]; try discriminate;
    repeat match goal with
           | |- context [if ?c then _ else _] => destruct c
           end;
    intros H; inversion H; subst;
    first [ exists [b0]; reflexivity | exists [b0; b1]; reflexivity
          | exists [b0; b1; b2]; reflexivity ].
Qed.

Lemma space_prefix_app (l r x : list ascii) :
  Cors.space_prefix l = Some r -> Cors.space_prefix (l ++ x) = Some (r ++ x).
Proof.
  unfold Cors.space_prefix.
  destruct l as [|b0 [|b1 [|b2 r2]]]; try discriminate; simpl;
    repeat match goal with
           | |- context [if ?c then _ else _] => destruct c
           end;
    intros H; inversion H; subst; reflexivity.
Qed.

Section Dropping.
Variable next : list ascii -> option (list ascii).
Hypothesis next_shorter :
  forall l r, next l = Some r -> (List.length r < List.length l)%nat.

Lemma drop_spaces_done (n : nat) (l : list ascii) :
  (List.length l <= n)%nat -> next (Cors.drop_spaces next n l) = None.
Proof.
  revert l. induction n as [|n IH]; intros l Hlen; simpl.
  - destruct (next l) as [r|] eqn:Hr; [|reflexivity].
    apply next_shorter in Hr. lia.
  - destruct (next l) as [r|] eqn:Hr; [|exact Hr].
    apply IH. apply next_shorter in Hr. lia.
Qed.

Lemma drop_spaces_fixed (n : nat) (l : list ascii) :
  next l = None -> Cors.drop_spaces next n l = l.
Proof. intros H. destruct n; simpl; [reflexivity|]. now rewrite H. Qed.

Lemma drop_spaces_suffix (n : nat) (l : list ascii) :
  (forall l r, next l = Some r -> exists p, l = p ++ r) ->
  exists p, l = p ++ Cors.drop_spaces next n l.
Proof.
  intros Hdrop. revert l. induction n as [|n IH]; intros l; simpl.
  - exists []. reflexivity.
  - destruct (next l) as [r|] eqn:Hr; [|exists []; reflexivity].
    destruct (Hdrop l r Hr) as (p & ->). destruct (IH r) as (q & Hq).
    exists (p ++ q). rewrite <- app_assoc, <- Hq. reflexivity.
Qed.
End Dropping.

(** What [strip] returns has no whitespace at either end. *)
Lemma strip_trimmed (s : string) : trimmed (Cors.strip s).
Proof.
  unfold trimmed, Cors.strip. rewrite list_ascii_of_string_of_list_ascii.
  set (l := Cors.lstrip (list_ascii_of_string s)).
  assert (Hl : Cors.space_prefix l = None).
  { apply drop_spaces_done; [apply space_prefix_shorter | apply le_n]. }
  split.
  - destruct (drop_spaces_suffix Cors.space_suffix (List.length l) (rev l) space_suffix_drops)
      as (p & Hp).
    unfold Cors.rstrip.
    destruct (Cors.space_prefix (rev (Cors.drop_spaces Cors.space_suffix (List.length l) (rev l))))
      as [r|] eqn:Hr; [|reflexivity].
    apply (space_prefix_app _ _ (rev p)) in Hr.
    rewrite <- rev_app_distr, <- Hp, rev_involutive in Hr. congruence.
  - unfold Cors.rstrip. rewrite rev_involutive.
    apply drop_spaces_done; [apply space_suffix_shorter | rewrite length_rev; apply le_n].
Qed.

(** A text without whitespace at either end is its own [strip]. *)
Lemma strip_fixed (s : string) : trimmed s -> Cors.strip s = s.
Proof.
  intros [Hp Hs]. unfold Cors.strip, Cors.lstrip, Cors.rstrip.
  rewrite (drop_spaces_fixed _ _ _ Hp), (drop_spaces_fixed _ _ _ Hs), rev_involutive.
  apply string_of_list_ascii_of_string.
Qed.

(** X25.  The list of CORS origins is never empty.  The wildcard ["*"]
    gives the one-entry list [["*"]]; any other setting gives one origin
    per comma-separated piece, empty pieces included, so that the empty
    setting gives one empty origin. *)
Theorem cors_origins_list_shape (self : Settings) :
  Cors.cors_origins_list self <> []
  /\ (cors_origins self = "*" -> Cors.cors_origins_list self = ["*"])
  /\ (cors_origins self <> "*" ->
      List.length (Cors.cors_origins_list self) = S (Cors.commas (cors_origins self)))
  /\ (cors_origins self = "" -> Cors.cors_origins_list self = [""]).
Proof.
  unfold Cors.cors_origins_list.
  destruct (String.eqb (cors_origins self) "*") eqn:Hstar.
  - apply String.eqb_eq in Hstar. repeat split; try discriminate; try reflexivity.
    + intros Hne. contradiction.
    + intros Hempty. rewrite Hempty in Hstar. discriminate Hstar.
  - apply String.eqb_neq in Hstar.
    assert (Hlen : List.length (map Cors.strip (Cors.split_comma (cors_origins self)))
                   = S (Cors.commas (cors_origins self))).
    { rewrite length_map. apply split_comma_length. }
    repeat split.
    + intros Hnil. rewrite Hnil in Hlen. discriminate Hlen.
    + intros Heq. contradiction.
    + intros _. exact Hlen.
    + intros ->. reflexivity.
Qed.

(** X26.  No origin in the list starts or ends with whitespace, Unicode
    whitespace included. *)
Theorem cors_origins_are_trimmed (self : Settings) :
  Forall trimmed (Cors.cors_origins_list self).
Proof.
  unfold Cors.cors_origins_list.
  destruct (String.eqb (cors_origins self) "*").
  - constructor; [split; reflexivity | constructor].
  - apply Forall_forall. intros o Hin. apply in_map_iff in Hin.
    destruct Hin as (piece & <- & _). apply strip_trimmed.
Qed.

(** X27.  Origins written without whitespace around them come back as they
    were written: joining the list with commas gives the setting back. *)
Theorem cors_origins_round_trip (self : Settings) :
  Forall trimmed (Cors.split_comma (cors_origins self)) ->
  String.concat "," (Cors.cors_origins_list self) = cors_origins self.
Proof.
  intros Htrim. unfold Cors.cors_origins_list.
  destruct (String.eqb (cors_origins self) "*") eqn:Hstar.
  - apply String.eqb_eq in Hstar. rewrite Hstar. reflexivity.
  - replace (map Cors.strip (Cors.split_comma (cors_origins self)))
      with (Cors.split_comma (cors_origins self)).
    + apply concat_split_comma.
    + induction Htrim as [|o pieces Ho _ IH]; simpl; [reflexivity|].
      rewrite (strip_fixed o Ho), <- IH. reflexivity.
Qed.

(** X27, run: two origins. *)
Lemma cors_origins_round_trip_witness :
  Forall trimmed (Cors.split_comma "http://localhost:3000,https://flows.example.com")
  /\ Cors.cors_origins_list
       (settings_with_origins "http://localhost:3000,https://flows.example.com")
     = ["http://localhost:3000"; "https://flows.example.com"]
  /\ String.concat "," (Cors.cors_origins_list
                          (settings_with_origins
                             "http://localhost:3000,https://flows.example.com"))
     = "http://localhost:3000,https://flows.example.com".
Proof.
  assert (Htrim : Forall trimmed
                    (Cors.split_comma "http://localhost:3000,https://flows.example.com")).
  { change (Forall trimmed ["http://localhost:3000"; "https://flows.example.com"]).
    repeat (constructor; [split; vm_compute; reflexivity|]). constructor. }
  split; [exact Htrim|]. split; [vm_compute; reflexivity|].
  apply (cors_origins_round_trip
           (settings_with_origins "http://localhost:3000,https://flows.example.com")).
  exact Htrim.
Defined.

(** X28, run: auditing on, and a handler that answers with the one byte
    0x80. *)
Lemma dispatch_undecodable_response_raises_witness :
  fst (Logging.dispatch (Demo.env Demo.html_200) Demo.codec (Demo.settings_with None true)
                        Samples.post_empty_object (Samples.answers Samples.binary)
                        (Demo.world0 (Demo.settings_with None true)))
  = Raises (UnicodeDecodeError "utf-8").
Proof.
  destruct (dispatch_undecodable_response_raises
              (Demo.env Demo.html_200) Demo.codec (Demo.settings_with None true)
              Samples.post_empty_object (Samples.answers Samples.binary)
              (Demo.world0 (Demo.settings_with None true)) (AJson (JDict []))
              eq_refl eq_refl) as (w2 & _ & H).
  apply (H Samples.binary w2); reflexivity.
Defined.
